(** * Order, notification and user service: model and verified properties

    A shallow embedding of [order-service/app.py],
    [notification-service/app.py] and [user-service/app.py].  Each Flask
    view becomes a function from the request, the outcome of the outbound
    HTTP calls and the SQLite table to a response and the table after the
    request.  Python exceptions are an error monad; an exception that leaves
    a view is turned into a response by [handle_error].  The table is then
    as the last [commit] left it: as before the request when the exception
    came before the commit, with the written row when it came after.

    A Python str is a [string], one character of the model for one
    character of the str.  The ASCII characters stand for themselves;
    which characters the other characters of the model stand for is left
    to the platform, and with it which strs SQLite takes as text.

    Requests are served one at a time, against a database file that can
    be opened and written. *)

From Stdlib Require Import ZArith List String Ascii Bool Lia.
From Stdlib Require Import Permutation Sorted DecimalString.
From Stdlib Require Import Floats.SpecFloat.
Import ListNotations.

Local Open Scope string_scope.
Local Open Scope Z_scope.
Set Warnings "-register-all".

(** ** JSON values, as Python holds them after [json.loads]

    [JNull] is Python's [None].  A [JFloat] is a binary64 value: Python's
    parser yields infinities for literals such as [1e999].  A [JDict] lists
    the entries of a Python dict, keys distinct, in insertion order. *)

Inductive json : Type :=
| JNull
| JBool (b : bool)
| JInt (n : Z)
| JFloat (f : spec_float)
| JStr (s : string)
| JList (l : list json)
| JDict (kv : list (string * json)).

(** Values SQLite stores in a column. *)
Inductive sql_value : Type :=
| SNull
| SInteger (n : Z)
| SReal (f : spec_float)
| SText (s : string).

(** ** Python exceptions *)

Inductive exn : Type :=
| TypeError
| ValueError
| OverflowError
| AttributeError
| JSONDecodeError                       (* resp.json() on a body that is not JSON *)
| InterfaceError                        (* sqlite3: parameter of an unsupported type
                                           (ProgrammingError from Python 3.11 on) *)
| OperationalError                      (* sqlite3: SQLITE_FULL, no rowid left *)
| UnicodeEncodeError                    (* a str that the codec cannot encode *)
| DataError                             (* sqlite3: SQLITE_TOOBIG *)
| OSError                               (* a write to a closed or broken stream *)
| UpstreamUnavailable (service details : string)
| UpstreamBadResponse (service : string) (status_code : Z) (body : string).

(** ** What the model leaves to the platform

    Library behaviour beneath the source that the views call but whose full
    tables are not reproduced here: which characters [str.strip] removes,
    which texts [int] accepts, how [str] prints a float or a container,
    which strs the sqlite3 module binds as a parameter, and how SQLite
    converts a value stored in a column declared [INTEGER].  Every theorem
    below holds for every platform. *)

Class Platform : Type := {
  (** [s.strip()] *)
  strip : string -> string;
  strip_empty : strip "" = "";
  (** [int(s)] for a str [s]; [None] is [ValueError] *)
  int_of_str : string -> option Z;
  (** [str(v)] for a float, a list or a dict *)
  repr : json -> string;
  (** the exception [execute] raises when it binds the str as a statement
      parameter, if it raises one: the sqlite3 module passes a str to
      SQLite in UTF-8, so a str that holds a lone surrogate is refused with
      [UnicodeEncodeError], and SQLite refuses a text beyond its length
      limit *)
  text_error : string -> option exn;
  (** the value a column of declared type [INTEGER] holds after a store *)
  integer_affinity : sql_value -> sql_value
}.

(** ** The error monad *)

Inductive result (A : Type) : Type :=
| Ok (a : A)
| Raise (e : exn).
Arguments Ok {A} a.
Arguments Raise {A} e.

Definition bind {A B : Type} (c : result A) (k : A -> result B) : result B :=
  match c with
  | Ok a => k a
  | Raise e => Raise e
  end.

Notation "x <- c ;; k" := (bind c (fun x => k))
  (at level 61, c at next level, right associativity).
Notation "' p <- c ;; k" := (bind c (fun x => let p := x in k))
  (at level 61, p pattern, c at next level, right associativity).

(** A view may also leave through an early [return] with a response. *)
Definition early (R A : Type) : Type := result (R + A).
Definition Return {R A : Type} (r : R) : early R A := Ok (inl r).
Definition Next {R A : Type} (a : A) : early R A := Ok (inr a).

Definition bind_early {R A B : Type} (c : early R A) (k : A -> early R B)
  : early R B :=
  match c with
  | Ok (inr a) => k a
  | Ok (inl r) => Ok (inl r)
  | Raise e => Raise e
  end.

Notation "x <~ c ;; k" := (bind_early c (fun x => k))
  (at level 61, c at next level, right associativity).

(** ** Python built-ins used by the views *)

(** Truth value of a JSON value: [None], [False], zero, and the empty str,
    list and dict are false. *)
Definition truthy (v : json) : bool :=
  match v with
  | JNull => false
  | JBool b => b
  | JInt n => negb (n =? 0)
  | JFloat (S754_zero _) => false
  | JFloat _ => true
  | JStr s => negb (s =? "")%string
  | JList l => match l with [] => false | _ :: _ => true end
  | JDict kv => match kv with [] => false | _ :: _ => true end
  end.

(** [a or b] *)
Definition py_or (a b : json) : json := if truthy a then a else b.

(** [v is None] *)
Definition is_none (v : json) : bool :=
  match v with JNull => true | _ => false end.

Fixpoint dict_get (kv : list (string * json)) (k : string) : json :=
  match kv with
  | [] => JNull
  | (k', v) :: rest => if (k' =? k)%string then v else dict_get rest k
  end.

(** [d[k] = v] *)
Fixpoint dict_set (kv : list (string * json)) (k : string) (v : json)
  : list (string * json) :=
  match kv with
  | [] => [(k, v)]
  | (k', v') :: rest =>
      if (k' =? k)%string then (k, v) :: rest else (k', v') :: dict_set rest k v
  end.

(** [k in d] *)
Fixpoint dict_has (kv : list (string * json)) (k : string) : bool :=
  match kv with
  | [] => false
  | (k', _) :: rest => (k' =? k)%string || dict_has rest k
  end.

(** [body.get(k)]: only a dict has [get]. *)
Definition py_get (body : json) (k : string) : result json :=
  match body with
  | JDict kv => Ok (dict_get kv k)
  | _ => Raise AttributeError
  end.

(** [str(n)] for an int. *)
Definition str_int (n : Z) : string := NilZero.string_of_int (Z.to_int n).

(** [int(f)] for a float: truncation towards zero. *)
Definition int_of_float (f : spec_float) : result Z :=
  match f with
  | S754_zero _ => Ok 0
  | S754_infinity _ => Raise OverflowError
  | S754_nan => Raise ValueError
  | S754_finite s m e =>
      let a := if 0 <=? e then Z.pos m * 2 ^ e else Z.pos m / 2 ^ (- e) in
      Ok (if s then - a else a)
  end.

Section Builtins.
Context {P : Platform}.

(** [v.strip()]: only a str has [strip]. *)
Definition py_strip (v : json) : result string :=
  match v with
  | JStr s => Ok (strip s)
  | _ => Raise AttributeError
  end.

(** [str(v)] *)
Definition py_str (v : json) : string :=
  match v with
  | JNull => "None"
  | JBool true => "True"
  | JBool false => "False"
  | JInt n => str_int n
  | JStr s => s
  | JFloat _ | JList _ | JDict _ => repr v
  end.

(** [int(v)] *)
Definition py_int (v : json) : result Z :=
  match v with
  | JNull => Raise TypeError
  | JBool b => Ok (if b then 1 else 0)
  | JInt n => Ok n
  | JFloat f => int_of_float f
  | JStr s => match int_of_str s with Some n => Ok n | None => Raise ValueError end
  | JList _ | JDict _ => Raise TypeError
  end.
End Builtins.

(** ** HTTP *)

(** What a view hands back to Flask: a body and a status code.  [Json j] is
    [jsonify(j)].  [ServerError e] is the body
    [{"error": "Internal Server Error", "message": str(e)}] that
    [handle_error] builds for an exception it does not classify. *)
Inductive body : Type :=
| Json (j : json)
| ServerError (e : exn)
| Text (s : string).

Definition response : Type := body * Z.

(** Outcome of [requests.get] / [requests.post]: a [RequestException] whose
    text is [str(exc)], or a completed response with its status code, its
    text, and the value of [resp.json()] when the text is JSON. *)
Inductive http_outcome : Type :=
| RequestException (text : string)
| Response (status_code : Z) (text : string) (js : option json).

(** The incoming request: [request.get_json(silent=True)], which is [None]
    for a missing or malformed body. *)
Record request : Type := { get_json : json }.

(** ** SQLite *)

Definition INT64_MAX : Z := 9223372036854775807.
Definition INT64_MIN : Z := -9223372036854775808.

(** The sqlite3 module binds a Python int only if it fits 64 bits signed;
    otherwise [execute] raises [OverflowError]. *)
Definition sqlite_int (n : Z) : bool := (INT64_MIN <=? n) && (n <=? INT64_MAX).

Definition bind_int (n : Z) : result Z :=
  if sqlite_int n then Ok n else Raise OverflowError.

Section Binding.
Context {P : Platform}.

(** The sqlite3 module binds the str. *)
Definition sqlite_text (s : string) : bool :=
  match text_error s with
  | None => true
  | Some _ => false
  end.

(** Binding of a str as a statement parameter. *)
Definition bind_text (s : string) : result string :=
  match text_error s with
  | None => Ok s
  | Some e => Raise e
  end.

(** Binding of an arbitrary JSON value as a statement parameter. *)
Definition bind_param (v : json) : result sql_value :=
  match v with
  | JNull => Ok SNull
  | JBool b => Ok (SInteger (if b then 1 else 0))
  | JInt n => n' <- bind_int n ;; Ok (SInteger n')
  | JFloat S754_nan => Ok SNull
  | JFloat f => Ok (SReal f)
  | JStr s => s' <- bind_text s ;; Ok (SText s')
  | JList _ | JDict _ => Raise InterfaceError
  end.

End Binding.

Definition json_of_sql (v : sql_value) : json :=
  match v with
  | SNull => JNull
  | SInteger n => JInt n
  | SReal f => JFloat f
  | SText s => JStr s
  end.

(** ** order-service/app.py *)

Module OrderService.

(** A row of table [orders]. *)
Record order : Type := {
  id : Z;
  user_id : Z;
  item : string;
  amount : Z;
  status : string;
  created_at : string
}.

(** The table, with the [sqlite_sequence] entry that [AUTOINCREMENT]
    keeps: the largest rowid the table has ever held. *)
Record db : Type := { rows : list order; seq : Z }.

(** The table right after [init_db] on a fresh file. *)
Definition empty_db : db := {| rows := []; seq := 0 |}.

(** The world outside the process that one request observes. *)
Record env : Type := {
  (** [utc_now_iso()] *)
  utc_now_iso : string;
  (** [requests.get(f"{user_service_url}/users/{user_id}")] *)
  user_service : Z -> http_outcome;
  (** [requests.post(f"{notification_service_url}/notify", json=payload)] *)
  notification_service : json -> http_outcome
}.

(** [dict(row)] for [SELECT id, user_id, item, amount, status, created_at]. *)
Definition dict_of_row (o : order) : list (string * json) :=
  [ ("id", JInt (id o)); ("user_id", JInt (user_id o)); ("item", JStr (item o));
    ("amount", JInt (amount o)); ("status", JStr (status o));
    ("created_at", JStr (created_at o)) ].

Definition max_rowid (l : list order) : Z :=
  fold_right (fun o m => Z.max (id o) m) 0 l.

Section Store.
Context {P : Platform}.

(** [INSERT INTO orders (user_id, item, amount, status, created_at)] and
    [commit]; returns [cur.lastrowid].  The parameters are bound in their
    order; [st] and [ts] are the literal ["created"] and the output of
    [isoformat], ASCII text that is always bound.  The rowid is one more
    than the largest the table has ever held; when that is [INT64_MAX]
    SQLite refuses the insert. *)
Definition insert_order (d : db) (uid : Z) (it : string) (amt : Z)
    (st ts : string) : result (Z * db) :=
  uid' <- bind_int uid ;;
  it' <- bind_text it ;;
  amt' <- bind_int amt ;;
  let top := Z.max (seq d) (max_rowid (rows d)) in
  if top <? INT64_MAX then
    let new := top + 1 in
    Ok (new,
        {| rows := (rows d ++ [ {| id := new; user_id := uid'; item := it';
                                  amount := amt'; status := st;
                                  created_at := ts |} ])%list;
           seq := new |})
  else Raise OperationalError.

End Store.

(** [SELECT ... FROM orders WHERE id = ?] then [fetchone()]. *)
Definition select_order (d : db) (order_id : Z) : result (option order) :=
  k <- bind_int order_id ;;
  Ok (find (fun o => id o =? k) (rows d)).

(** [ORDER BY id DESC] *)
Fixpoint insert_desc (o : order) (l : list order) : list order :=
  match l with
  | [] => [o]
  | x :: rest => if id x <=? id o then o :: l else x :: insert_desc o rest
  end.

Definition order_by_id_desc (l : list order) : list order :=
  fold_right insert_desc [] l.

(** One [column = ?] of the [UPDATE] with the value bound to it. *)
Inductive assignment : Type :=
| SetStatus (s : string)
| SetItem (s : string)
| SetAmount (n : Z).

Section Update.
Context {P : Platform}.

Definition bind_assignment (a : assignment) : result assignment :=
  match a with
  | SetStatus s => s' <- bind_text s ;; Ok (SetStatus s')
  | SetItem s => s' <- bind_text s ;; Ok (SetItem s')
  | SetAmount n => n' <- bind_int n ;; Ok (SetAmount n')
  end.

Fixpoint bind_assignments (l : list assignment) : result (list assignment) :=
  match l with
  | [] => Ok []
  | a :: rest =>
      a' <- bind_assignment a ;;
      rest' <- bind_assignments rest ;;
      Ok (a' :: rest')
  end.

Definition assign (o : order) (a : assignment) : order :=
  match a with
  | SetStatus s => {| id := id o; user_id := user_id o; item := item o;
                      amount := amount o; status := s;
                      created_at := created_at o |}
  | SetItem s => {| id := id o; user_id := user_id o; item := s;
                    amount := amount o; status := status o;
                    created_at := created_at o |}
  | SetAmount n => {| id := id o; user_id := user_id o; item := item o;
                      amount := n; status := status o;
                      created_at := created_at o |}
  end.

(** [UPDATE orders SET {fields} WHERE id = ?] and [commit]. *)
Definition update_rows (d : db) (fields : list assignment) (order_id : Z)
  : result db :=
  fields' <- bind_assignments fields ;;
  k <- bind_int order_id ;;
  Ok {| rows := map (fun o => if id o =? k then fold_left assign fields' o else o)
                    (rows d);
        seq := seq d |}.

End Update.

(** [DELETE FROM orders WHERE id = ?] and [commit]; returns [cur.rowcount]. *)
Definition delete_rows (d : db) (order_id : Z) : result (Z * db) :=
  k <- bind_int order_id ;;
  let kept := filter (fun o => negb (id o =? k)) (rows d) in
  Ok (Z.of_nat (List.length (rows d)) - Z.of_nat (List.length kept),
      {| rows := kept; seq := seq d |}).

Definition error_body (error message : string) : body :=
  Json (JDict [("error", JStr error); ("message", JStr message)]).

Definition bad_request (message : string) : response :=
  (error_body "Bad Request" message, 400).

Definition not_found : response :=
  (error_body "Not Found" "Order not found.", 404).

(** The [errorhandler(Exception)].  No view raises an [HTTPException],
    so that branch has no counterpart here. *)
Definition handle_error (err : exn) : response :=
  match err with
  | UpstreamUnavailable service details =>
      (Json (JDict [("error", JStr "Service Unavailable");
                    ("message", JStr (service ++ " is unavailable."));
                    ("details", JStr details)]),
       503)
  | UpstreamBadResponse service status_code text =>
      (Json (JDict [("error", JStr "Bad Gateway");
                    ("message", JStr (service ++ " returned an unexpected response."));
                    ("status_code", JInt status_code);
                    ("body", JStr (substring 0 1000 text))]),
       502)
  | _ => (ServerError err, 500)
  end.

(** A view that raises answers through [handle_error]; the connection is
    closed without a commit, so the table is as before the request. *)
Definition serve (d : db) (view : result (response * db)) : response * db :=
  match view with
  | Ok r => r
  | Raise e => (handle_error e, d)
  end.

Definition fetch_user (w : env) (user_id : Z) : result json :=
  match user_service w user_id with
  | RequestException text => Raise (UpstreamUnavailable "user-service" text)
  | Response status_code text js =>
      if status_code =? 404 then Ok JNull
      else if negb (status_code =? 200)
      then Raise (UpstreamBadResponse "user-service" status_code text)
      else match js with
           | Some j => Ok j
           | None => Raise JSONDecodeError
           end
  end.

(** The [payload] of [send_notification]. *)
Definition notification_payload (user_id order_id : Z) (message : string)
  : json :=
  JDict [("user_id", JInt user_id); ("order_id", JInt order_id);
         ("message", JStr message)].

Definition send_notification (w : env) (user_id order_id : Z) (message : string)
  : bool * option string :=
  let payload := notification_payload user_id order_id message in
  match notification_service w payload with
  | RequestException text => (false, Some text)
  | Response status_code text _ =>
      if negb ((status_code =? 200) || (status_code =? 201))
      then (false,
            Some ("Unexpected status " ++ str_int status_code ++ ": "
                  ++ substring 0 500 text))
      else (true, None)
  end.

(** The message of the notification for a new order. *)
Definition creation_message (order_id user_id_int : Z) : string :=
  "Order #" ++ str_int order_id ++ " created for user #"
  ++ str_int user_id_int ++ ".".

Section Views.
Context {P : Platform}.

(** [create_order], lines 141-167: the checks made before any outbound
    call.  On success it yields [user_id_int], [item] and [amount_int]. *)
Definition validate_order (req : request) : early response (Z * string * Z) :=
  let body := py_or (get_json req) (JDict []) in
  user_id <- py_get body "user_id" ;;
  item0 <- py_get body "item" ;;
  item <- py_strip (py_or item0 (JStr "")) ;;
  amount <- py_get body "amount" ;;
  if is_none user_id || (item =? "")%string || is_none amount then
    Return (bad_request "Fields 'user_id', 'item', and 'amount' are required.")
  else
    user_id_int <~ match py_int user_id with
                   | Raise TypeError | Raise ValueError =>
                       Return (bad_request "Field 'user_id' must be an integer.")
                   | Raise e => Raise e
                   | Ok n => Next n
                   end ;;
    amount_int <~ match py_int amount with
                  | Raise TypeError | Raise ValueError =>
                      Return (bad_request "Field 'amount' must be an integer.")
                  | Raise e => Raise e
                  | Ok n => Next n
                  end ;;
    if amount_int <=? 0 then Return (bad_request "Field 'amount' must be > 0.")
    else Next (user_id_int, item, amount_int).

(** [create_order], lines 169-196. *)
Definition place_order (w : env) (d : db) (user_id_int : Z) (item : string)
    (amount_int : Z) : result (response * db) :=
  user <- fetch_user w user_id_int ;;
  if is_none user then Ok (bad_request "User does not exist.", d)
  else
    '(order_id, d') <- insert_order d user_id_int item amount_int "created"
                                    (utc_now_iso w) ;;
    row <- select_order d' order_id ;;
    match row with
    | None => Raise TypeError
    | Some r =>
        let order := dict_of_row r in
        let '(ok, err) :=
          send_notification w user_id_int order_id
            (creation_message order_id user_id_int) in
        let order := dict_set order "notification_sent" (JBool ok) in
        let order :=
          match err with
          | Some e => if negb (e =? "")%string
                      then dict_set order "notification_error" (JStr e)
                      else order
          | None => order
          end in
        Ok ((Json (JDict order), 201), d')
    end.

(** [POST /orders] *)
Definition create_order (req : request) (w : env) (d : db) : response * db :=
  serve d (v <- validate_order req ;;
           match v with
           | inl resp => Ok (resp, d)
           | inr (user_id_int, item, amount_int) =>
               place_order w d user_id_int item amount_int
           end).

(** [GET /orders] *)
Definition list_orders (d : db) : response * db :=
  ((Json (JList (map (fun r => JDict (dict_of_row r))
                     (order_by_id_desc (rows d)))), 200), d).

(** [GET /orders/<int:order_id>] *)
Definition get_order (order_id : Z) (d : db) : response * db :=
  serve d (row <- select_order d order_id ;;
           match row with
           | None => Ok (not_found, d)
           | Some r => Ok ((Json (JDict (dict_of_row r)), 200), d)
           end).

(** [PUT /orders/<int:order_id>], lines 229-257: the [fields] and
    [values] built from the body, or the response of an early [return]. *)
Definition update_fields (status item amount : json)
  : early response (list assignment) :=
  let fields := [] in
  fields <~ (if negb (is_none status) then
               let status := strip (py_str status) in
               if (status =? "")%string
               then Return (bad_request "Field 'status' cannot be empty.")
               else Next (fields ++ [SetStatus status])%list
             else Next fields) ;;
  fields <~ (if negb (is_none item) then
               let item := strip (py_str item) in
               if (item =? "")%string
               then Return (bad_request "Field 'item' cannot be empty.")
               else Next (fields ++ [SetItem item])%list
             else Next fields) ;;
  fields <~ (if negb (is_none amount) then
               match py_int amount with
               | Raise TypeError | Raise ValueError =>
                   Return (bad_request "Field 'amount' must be an integer.")
               | Raise e => Raise e
               | Ok amount_int =>
                   if amount_int <=? 0
                   then Return (bad_request "Field 'amount' must be > 0.")
                   else Next (fields ++ [SetAmount amount_int])%list
               end
             else Next fields) ;;
  match fields with
  | [] => Return (bad_request "No updatable fields provided.")
  | _ :: _ => Next fields
  end.

(** [PUT /orders/<int:order_id>] *)
Definition update_order (order_id : Z) (req : request) (d : db)
  : response * db :=
  serve d (
    let body := py_or (get_json req) (JDict []) in
    status <- py_get body "status" ;;
    item <- py_get body "item" ;;
    amount <- py_get body "amount" ;;
    existing <- select_order d order_id ;;
    match existing with
    | None => Ok (not_found, d)
    | Some _ =>
        v <- update_fields status item amount ;;
        match v with
        | inl resp => Ok (resp, d)
        | inr fields =>
            d' <- update_rows d fields order_id ;;
            row <- select_order d' order_id ;;
            match row with
            | None => Raise TypeError
            | Some r => Ok ((Json (JDict (dict_of_row r)), 200), d')
            end
        end
    end).

(** [DELETE /orders/<int:order_id>] *)
Definition delete_order (order_id : Z) (d : db) : response * db :=
  serve d ('(rowcount, d') <- delete_rows d order_id ;;
           if rowcount =? 0 then Ok (not_found, d')
           else Ok ((Text "", 204), d')).

End Views.

(** *** Vocabulary of the statements about the order service *)

(** The dispatch did not deliver: a transport error, or a status other
    than 200 and 201. *)
Definition dispatch_fails (r : http_outcome) : Prop :=
  match r with
  | RequestException _ => True
  | Response status_code _ _ => status_code <> 200 /\ status_code <> 201
  end.

(** The row [create_order] inserts: the next rowid, status ["created"]
    and the clock's timestamp. *)
Definition new_order (w : env) (d : db) (uid : Z) (it : string) (amt : Z)
  : order :=
  {| id := Z.max (seq d) (max_rowid (rows d)) + 1; user_id := uid; item := it;
     amount := amt; status := "created"; created_at := utc_now_iso w |}.

(** The body of a 201 response written out: the row, the delivery flag
    and, when the error detail is a non-empty str, that detail. *)
Definition created_body (o : order) (ok : bool) (err : option string)
  : list (string * json) :=
  (dict_of_row o ++ [("notification_sent", JBool ok)]
   ++ match err with
      | Some e => if (e =? "")%string then [] else [("notification_error", JStr e)]
      | None => []
      end)%list.

(** What the checks of [update_order] guarantee about a value. *)
Definition assignment_ok (a : assignment) : Prop :=
  match a with
  | SetStatus s => s <> ""
  | SetItem s => s <> ""
  | SetAmount n => 0 < n
  end.

(** The sqlite3 module binds the value as a statement parameter. *)
Definition bindable {P : Platform} (a : assignment) : Prop :=
  match a with
  | SetStatus s | SetItem s => sqlite_text s = true
  | SetAmount n => sqlite_int n = true
  end.

(** The dispatch delivered: a completed response with status 200 or 201. *)
Definition dispatch_delivered (r : http_outcome) : Prop :=
  match r with
  | RequestException _ => False
  | Response status_code _ _ => status_code = 200 \/ status_code = 201
  end.

(** The row after a successful update: each of [status], [item] and
    [amount] is replaced when the body supplies it and kept otherwise;
    [n] is the supplied amount as an int. *)
Definition updated_order {P : Platform} (o : order) (st it am : json) (n : Z) : order :=
  {| id := id o;
     user_id := user_id o;
     item := if is_none it then item o else strip (py_str it);
     amount := if is_none am then amount o else n;
     status := if is_none st then status o else strip (py_str st);
     created_at := created_at o |}.

End OrderService.

(** ** notification-service/app.py *)

Module NotificationService.

(** A row of table [notifications].  [user_id] and [order_id] are
    nullable columns of declared type [INTEGER]; SQLite stores whatever
    value is bound, after the column's conversion. *)
Record notification : Type := {
  id : Z;
  user_id : sql_value;
  order_id : sql_value;
  message : string;
  created_at : string
}.

Record db : Type := { rows : list notification; seq : Z }.

Definition empty_db : db := {| rows := []; seq := 0 |}.

(** The world outside the process that one request observes. *)
Record env : Type := {
  (** [utc_now_iso()] *)
  utc_now_iso : string;
  (** the exception [print] raises when it writes the line to standard
      output, if it raises one: the stream is closed or broken, or its
      encoding has no place for a character of the line *)
  stdout : string -> option exn
}.

Definition dict_of_row (n : notification) : list (string * json) :=
  [ ("id", JInt (id n)); ("user_id", json_of_sql (user_id n));
    ("order_id", json_of_sql (order_id n)); ("message", JStr (message n));
    ("created_at", JStr (created_at n)) ].

Definition max_rowid (l : list notification) : Z :=
  fold_right (fun n m => Z.max (id n) m) 0 l.

Definition error_body (error message : string) : body :=
  Json (JDict [("error", JStr error); ("message", JStr message)]).

(** The [errorhandler(Exception)]; no view raises an [HTTPException]. *)
Definition handle_error (err : exn) : response := (ServerError err, 500).

(** A view that raises answers through [handle_error]; [d] is the table
    as the last commit left it. *)
Definition serve (d : db) (view : result (response * db)) : response * db :=
  match view with
  | Ok r => r
  | Raise e => (handle_error e, d)
  end.

(** [print(line)] *)
Definition print (w : env) (line : string) : result unit :=
  match stdout w line with
  | None => Ok tt
  | Some e => Raise e
  end.

Definition select_notification (d : db) (notification_id : Z)
  : result (option notification) :=
  k <- bind_int notification_id ;;
  Ok (find (fun n => id n =? k) (rows d)).

Fixpoint insert_desc (n : notification) (l : list notification)
  : list notification :=
  match l with
  | [] => [n]
  | x :: rest => if id x <=? id n then n :: l else x :: insert_desc n rest
  end.

Definition order_by_id_desc (l : list notification) : list notification :=
  fold_right insert_desc [] l.

Section Views.
Context {P : Platform}.

(** [INSERT INTO notifications (user_id, order_id, message, created_at)]
    and [commit]; returns [cur.lastrowid].  The parameters are bound in
    their order; [ts] is the output of [isoformat], ASCII text that is
    always bound. *)
Definition insert_notification (d : db) (uid oid : json) (msg ts : string)
  : result (Z * db) :=
  uid' <- bind_param uid ;;
  oid' <- bind_param oid ;;
  msg' <- bind_text msg ;;
  let top := Z.max (seq d) (max_rowid (rows d)) in
  if top <? INT64_MAX then
    let new := top + 1 in
    Ok (new,
        {| rows := (rows d ++ [ {| id := new;
                                   user_id := integer_affinity uid';
                                   order_id := integer_affinity oid';
                                   message := msg';
                                   created_at := ts |} ])%list;
           seq := new |})
  else Raise OperationalError.

(** The line that [notify] prints for the stored row. *)
Definition log_line (r : notification) : string :=
  "[notification-service] " ++ created_at r
  ++ " user_id=" ++ py_str (json_of_sql (user_id r))
  ++ " order_id=" ++ py_str (json_of_sql (order_id r))
  ++ " message=" ++ message r.

(** [notify], lines 85-92: what follows the commit.  An exception raised
    here finds the row committed. *)
Definition report_stored (w : env) (d' : db) (notification_id : Z)
  : response * db :=
  serve d' (
    row <- select_notification d' notification_id ;;
    match row with
    | None => Raise TypeError
    | Some r =>
        _ <- print w (log_line r) ;;
        Ok ((Json (JDict (dict_of_row r)), 201), d')
    end).

(** [POST /notify] *)
Definition notify (req : request) (w : env) (d : db) : response * db :=
  serve d (
    let body := py_or (get_json req) (JDict []) in
    message0 <- py_get body "message" ;;
    message <- py_strip (py_or message0 (JStr "")) ;;
    if (message =? "")%string then
      Ok ((error_body "Bad Request" "Field 'message' is required.", 400), d)
    else
      user_id <- py_get body "user_id" ;;
      order_id <- py_get body "order_id" ;;
      '(notification_id, d') <- insert_notification d user_id order_id
                                                   message (utc_now_iso w) ;;
      Ok (report_stored w d' notification_id)).


(** [GET /notifications] *)
Definition list_notifications (d : db) : response * db :=
  ((Json (JList (map (fun r => JDict (dict_of_row r))
                     (order_by_id_desc (rows d)))), 200), d).

End Views.

End NotificationService.

(** ** Histories of the order service *)

Module History.
Import OrderService.

(** One request to the order service, with what the world answers
    during it. *)
Inductive op : Type :=
| CreateOrder (req : request) (w : env)
| ListOrders
| GetOrder (order_id : Z)
| UpdateOrder (order_id : Z) (req : request)
| DeleteOrder (order_id : Z).

(** The invariant of a stored row. *)
Definition row_ok (o : order) : Prop := 0 < amount o /\ status o <> "".


(** How one request can change the table: not at all, by the insert of
    [create_order], by the update of [update_order] with values that passed
    its checks, or by the delete of [delete_order]. *)
Inductive transition (d : db) : db -> Prop :=
| t_same : transition d d
| t_insert uid it amt ts :
    0 < amt ->
    let new := Z.max (seq d) (max_rowid (rows d)) + 1 in
    transition d {| rows := (rows d ++ [ {| id := new; user_id := uid; item := it;
                                            amount := amt; status := "created";
                                            created_at := ts |} ])%list;
                    seq := new |}
| t_update fields k :
    Forall assignment_ok fields ->
    transition d {| rows := map (fun o => if id o =? k
                                          then fold_left assign fields o else o)
                                (rows d);
                    seq := seq d |}
| t_delete k :
    transition d {| rows := filter (fun o => negb (id o =? k)) (rows d);
                    seq := seq d |}.

Section Run.
Context {P : Platform}.

Definition step (o : op) (d : db) : response * db :=
  match o with
  | CreateOrder req w => create_order req w d
  | ListOrders => list_orders d
  | GetOrder order_id => get_order order_id d
  | UpdateOrder order_id req => update_order order_id req d
  | DeleteOrder order_id => delete_order order_id d
  end.

(** The table after serving the requests in turn. *)
Definition run (ops : list op) (d : db) : db :=
  fold_left (fun d o => snd (step o d)) ops d.
End Run.

End History.

(** ** user-service/app.py *)

Module UserService.

(** A row of table [users]. *)
Record user : Type := {
  id : Z;
  name : string;
  email : string;
  created_at : string
}.

(** The table with its [sqlite_sequence] entry.  [email] is declared
    [UNIQUE]; the comparison is that of the stored text. *)
Record db : Type := { rows : list user; seq : Z }.

Definition empty_db : db := {| rows := []; seq := 0 |}.

(** [dict(row)] for [SELECT id, name, email, created_at]. *)
Definition dict_of_row (u : user) : list (string * json) :=
  [ ("id", JInt (id u)); ("name", JStr (name u)); ("email", JStr (email u));
    ("created_at", JStr (created_at u)) ].

Definition max_rowid (l : list user) : Z :=
  fold_right (fun u m => Z.max (id u) m) 0 l.

Definition error_body (error message : string) : body :=
  Json (JDict [("error", JStr error); ("message", JStr message)]).

Definition bad_request (message : string) : response :=
  (error_body "Bad Request" message, 400).

Definition not_found : response :=
  (error_body "Not Found" "User not found.", 404).

Definition conflict : response :=
  (error_body "Conflict" "User with this email already exists.", 409).

(** The [errorhandler(Exception)] for an exception raised in a view. *)
Definition handle_error (err : exn) : response := (ServerError err, 500).

Definition serve (d : db) (view : result (response * db)) : response * db :=
  match view with
  | Ok r => r
  | Raise e => (handle_error e, d)
  end.

(** What a writing statement can do: succeed, raise
    [sqlite3.IntegrityError] (the [UNIQUE] constraint), or raise another
    exception. *)
Inductive written (A : Type) : Type :=
| Done (a : A)
| IntegrityError
| Failed (e : exn).
Arguments Done {A} a.
Arguments IntegrityError {A}.
Arguments Failed {A} e.

Section Store.
Context {P : Platform}.

(** [INSERT INTO users (name, email, created_at)] and [commit]; returns
    [cur.lastrowid].  The parameters are bound first, in their order;
    [ts] is the output of [isoformat], ASCII text that is always bound.
    Then the rowid is chosen, then the [UNIQUE] index is checked. *)
Definition insert_user (d : db) (nm em ts : string) : written (Z * db) :=
  match (nm' <- bind_text nm ;; em' <- bind_text em ;; Ok (nm', em')) with
  | Raise e => Failed e
  | Ok (nm', em') =>
      let top := Z.max (seq d) (max_rowid (rows d)) in
      if top <? INT64_MAX then
        if existsb (fun u => (email u =? em')%string) (rows d) then IntegrityError
        else
          let new := top + 1 in
          Done (new,
                {| rows := (rows d ++ [ {| id := new; name := nm'; email := em';
                                           created_at := ts |} ])%list;
                   seq := new |})
      else Failed OperationalError
  end.

End Store.

(** [SELECT ... FROM users WHERE id = ?] then [fetchone()]. *)
Definition select_user (d : db) (user_id : Z) : result (option user) :=
  k <- bind_int user_id ;;
  Ok (find (fun u => id u =? k) (rows d)).

(** [ORDER BY id] *)
Fixpoint insert_asc (u : user) (l : list user) : list user :=
  match l with
  | [] => [u]
  | x :: rest => if id u <=? id x then u :: l else x :: insert_asc u rest
  end.

Definition order_by_id (l : list user) : list user :=
  fold_right insert_asc [] l.

(** One [column = ?] of the [UPDATE] with the value bound to it. *)
Inductive assignment : Type :=
| SetName (s : string)
| SetEmail (s : string).

Definition assign (u : user) (a : assignment) : user :=
  match a with
  | SetName s => {| id := id u; name := s; email := email u;
                    created_at := created_at u |}
  | SetEmail s => {| id := id u; name := name u; email := s;
                     created_at := created_at u |}
  end.

(** The email the [UPDATE] sets, if it sets one. *)
Definition assigned_email (fields : list assignment) : option string :=
  fold_left (fun acc a => match a with SetEmail s => Some s | SetName _ => acc end)
            fields None.

Section Update.
Context {P : Platform}.

Definition bind_assignment (a : assignment) : result assignment :=
  match a with
  | SetName s => s' <- bind_text s ;; Ok (SetName s')
  | SetEmail s => s' <- bind_text s ;; Ok (SetEmail s')
  end.

Fixpoint bind_assignments (l : list assignment) : result (list assignment) :=
  match l with
  | [] => Ok []
  | a :: rest =>
      a' <- bind_assignment a ;;
      rest' <- bind_assignments rest ;;
      Ok (a' :: rest')
  end.

(** [UPDATE users SET {fields} WHERE id = ?] and [commit].  The values
    are bound first, in their order, the identifier last.  The statement
    violates the [UNIQUE] constraint when it gives a row the email of
    another row. *)
Definition update_rows (d : db) (fields : list assignment) (user_id : Z)
  : written db :=
  match (fields' <- bind_assignments fields ;;
         k <- bind_int user_id ;;
         Ok (fields', k)) with
  | Raise e => Failed e
  | Ok (fields, k) =>
      let taken (e : string) :=
        existsb (fun u => id u =? k) (rows d)
        && existsb (fun u => negb (id u =? k) && (email u =? e)%string) (rows d) in
      match assigned_email fields with
      | Some e =>
          if taken e then IntegrityError
          else Done {| rows := map (fun u => if id u =? k
                                             then fold_left assign fields u else u)
                                   (rows d);
                       seq := seq d |}
      | None =>
          Done {| rows := map (fun u => if id u =? k
                                        then fold_left assign fields u else u)
                              (rows d);
                  seq := seq d |}
      end
  end.

End Update.

(** [DELETE FROM users WHERE id = ?] and [commit]; returns [cur.rowcount]. *)
Definition delete_rows (d : db) (user_id : Z) : result (Z * db) :=
  k <- bind_int user_id ;;
  let kept := filter (fun u => negb (id u =? k)) (rows d) in
  Ok (Z.of_nat (List.length (rows d)) - Z.of_nat (List.length kept),
      {| rows := kept; seq := seq d |}).

Section Views.
Context {P : Platform}.

(** [POST /users].  [now] is [utc_now_iso()]. *)
Definition create_user (req : request) (now : string) (d : db) : response * db :=
  serve d (
    let body := py_or (get_json req) (JDict []) in
    name0 <- py_get body "name" ;;
    name <- py_strip (py_or name0 (JStr "")) ;;
    email0 <- py_get body "email" ;;
    email <- py_strip (py_or email0 (JStr "")) ;;
    if (name =? "")%string || (email =? "")%string then
      Ok (bad_request "Fields 'name' and 'email' are required.", d)
    else
      match insert_user d name email now with
      | IntegrityError => Ok (conflict, d)
      | Failed e => Raise e
      | Done (user_id, d') =>
          row <- select_user d' user_id ;;
          match row with
          | None => Raise TypeError
          | Some r => Ok ((Json (JDict (dict_of_row r)), 201), d')
          end
      end).

(** [GET /users] *)
Definition list_users (d : db) : response * db :=
  ((Json (JList (map (fun r => JDict (dict_of_row r)) (order_by_id (rows d)))),
    200), d).

(** [GET /users/<int:user_id>] *)
Definition get_user (user_id : Z) (d : db) : response * db :=
  serve d (row <- select_user d user_id ;;
           match row with
           | None => Ok (not_found, d)
           | Some r => Ok ((Json (JDict (dict_of_row r)), 200), d)
           end).

(** [PUT /users/<int:user_id>], lines 130-148: the [fields] and [values]
    built from the body, or the response of an early [return]. *)
Definition update_fields (name email : json) : early response (list assignment) :=
  let fields := [] in
  fields <~ (if negb (is_none name) then
               let name := strip (py_str name) in
               if (name =? "")%string
               then Return (bad_request "Field 'name' cannot be empty.")
               else Next (fields ++ [SetName name])%list
             else Next fields) ;;
  fields <~ (if negb (is_none email) then
               let email := strip (py_str email) in
               if (email =? "")%string
               then Return (bad_request "Field 'email' cannot be empty.")
               else Next (fields ++ [SetEmail email])%list
             else Next fields) ;;
  match fields with
  | [] => Return (bad_request "No updatable fields provided.")
  | _ :: _ => Next fields
  end.

(** [PUT /users/<int:user_id>] *)
Definition update_user (user_id : Z) (req : request) (d : db) : response * db :=
  serve d (
    let body := py_or (get_json req) (JDict []) in
    name <- py_get body "name" ;;
    email <- py_get body "email" ;;
    row <- select_user d user_id ;;
    match row with
    | None => Ok (not_found, d)
    | Some _ =>
        v <- update_fields name email ;;
        match v with
        | inl resp => Ok (resp, d)
        | inr fields =>
            match update_rows d fields user_id with
            | IntegrityError => Ok (conflict, d)
            | Failed e => Raise e
            | Done d' =>
                updated <- select_user d' user_id ;;
                match updated with
                | None => Raise TypeError
                | Some r => Ok ((Json (JDict (dict_of_row r)), 200), d')
                end
            end
        end
    end).

(** [DELETE /users/<int:user_id>] *)
Definition delete_user (user_id : Z) (d : db) : response * db :=
  serve d ('(rowcount, d') <- delete_rows d user_id ;;
           if rowcount =? 0 then Ok (not_found, d')
           else Ok ((Text "", 204), d')).


(** One request to the user service. *)
Inductive op : Type :=
| CreateUser (req : request) (now : string)
| ListUsers
| GetUser (user_id : Z)
| UpdateUser (user_id : Z) (req : request)
| DeleteUser (user_id : Z).

Definition step (o : op) (d : db) : response * db :=
  match o with
  | CreateUser req now => create_user req now d
  | ListUsers => list_users d
  | GetUser user_id => get_user user_id d
  | UpdateUser user_id req => update_user user_id req d
  | DeleteUser user_id => delete_user user_id d
  end.

(** The table after serving the requests in turn. *)
Definition run (ops : list op) (d : db) : db :=
  fold_left (fun d o => snd (step o d)) ops d.

End Views.

(** The constraints the schema declares and the views' checks keep:
    rowids distinct, positive and at most the sequence entry; emails
    distinct; names and emails not empty. *)
Record well_formed (d : db) : Prop := {
  ids_distinct : NoDup (map id (rows d));
  ids_in_range : forall u, In u (rows d) -> 1 <= id u <= seq d;
  seq_in_range : 0 <= seq d <= INT64_MAX;
  emails_distinct : NoDup (map email (rows d));
  fields_present : forall u, In u (rows d) -> name u <> "" /\ email u <> ""
}.

End UserService.

(** ** Requests to the notification service in sequence *)

Module NotificationLog.
Import NotificationService.

Section Run.
Context {P : Platform}.

(** The table after serving [POST /notify] for each body in turn, each in
    its own world. *)
Definition serve_all (reqs : list (request * env)) (d : db) : db :=
  fold_left (fun d r => snd (notify (fst r) (snd r) d)) reqs d.
End Run.

End NotificationLog.

(** ** The services behind one another

    What [requests.get] and [requests.post] of the order service observe
    when the user service and the notification service are up and hold
    the given tables. *)

Module Deployment.

Section Wire.
Context {P : Platform}.
(** [render j] is the text Flask sends for [jsonify(j)], and [str_exn e]
    is [str(e)]. *)
Variable render : json -> string.
Variable str_exn : exn -> string.

Definition server_error_json (e : exn) : json :=
  JDict [("error", JStr "Internal Server Error"); ("message", JStr (str_exn e))].

(** [resp.text] *)
Definition text_of_body (b : body) : string :=
  match b with
  | Json j => render j
  | ServerError e => render (server_error_json e)
  | Text s => s
  end.

(** [resp.json()], when the text is JSON; the only [Text] body a view
    sends is the empty one. *)
Definition json_of_body (b : body) : option json :=
  match b with
  | Json j => Some j
  | ServerError e => Some (server_error_json e)
  | Text _ => None
  end.

Definition over_http (r : response) : http_outcome :=
  Response (snd r) (text_of_body (fst r)) (json_of_body (fst r)).


(** [POST {notification_service_url}/notify] with [json=payload] against
    the table [log], in the world [nw] of the notification service. *)
Definition notification_service_on (nw : NotificationService.env)
    (log : NotificationService.db) (payload : json) : http_outcome :=
  over_http (fst (NotificationService.notify {| get_json := payload |} nw log)).

End Wire.

End Deployment.

(** ** Further vocabulary for the order service *)

Module OrderFacts.
Import OrderService.

Section Facts.
Context {P : Platform}.

(** A text field of an update body passes its check: it is absent, or
    what [str] makes of it is not blank. *)
Definition text_field_ok (v : json) : Prop :=
  is_none v = true \/ strip (py_str v) <> "".

(** [int] fails on the value in a way the views catch. *)
Definition not_an_int (v : json) : Prop :=
  py_int v = Raise TypeError \/ py_int v = Raise ValueError.

End Facts.

(** The rowids of a table are distinct, positive and at most the sequence
    entry, which is at most [INT64_MAX]. *)
Record ids_ok (d : db) : Prop := {
  ids_distinct : NoDup (map id (rows d));
  ids_in_range : forall o, In o (rows d) -> 1 <= id o <= seq d;
  seq_in_range : 0 <= seq d <= INT64_MAX
}.

End OrderFacts.

(** ** Further vocabulary for the user service *)

Module UserFacts.
Import UserService.

Section Facts.
Context {P : Platform}.

(** The row after a successful update: [name] and [email] are replaced
    when the body supplies them and kept otherwise. *)
Definition updated_user (u : user) (nm em : json) : user :=
  {| id := id u;
     name := if is_none nm then name u else strip (py_str nm);
     email := if is_none em then email u else strip (py_str em);
     created_at := created_at u |}.

(** The update asks for an email that a user of another identifier
    holds. *)
Definition email_taken (d : db) (user_id : Z) (em : json) : bool :=
  negb (is_none em)
  && existsb (fun x => negb (id x =? user_id)
                       && (email x =? strip (py_str em))%string) (rows d).

(** A field of a user body that is missing or blank: a false value, or a
    str that is empty once stripped. *)
Definition blank (v : json) : Prop :=
  truthy v = false \/ exists s, v = JStr s /\ strip s = "".

(** A str or a false value: what [(v or "").strip()] accepts. *)
Definition text_or_false (v : json) : Prop :=
  truthy v = false \/ exists s, v = JStr s.

(** A field of an update body passes its check: it is absent, or what
    [str] makes of it is not blank. *)
Definition field_ok (v : json) : Prop :=
  is_none v = true \/ strip (py_str v) <> "".

(** The sqlite3 module binds the field of an update body: it is absent,
    or what [str] makes of it, stripped, is a text the module binds. *)
Definition field_bindable (v : json) : Prop :=
  is_none v = true \/ sqlite_text (strip (py_str v)) = true.

(** The sqlite3 module binds the value of the assignment. *)
Definition bindable (a : assignment) : Prop :=
  match a with
  | SetName s | SetEmail s => sqlite_text s = true
  end.

End Facts.

End UserFacts.

(** ** A platform to run the model on

    [ascii_platform] agrees with Python and SQLite on ASCII text and on
    integers: [strip] removes the ASCII whitespace of [str.isspace], [int]
    reads an optionally signed decimal numeral with single underscores
    between digits, and an [INTEGER] column turns a decimal numeral or an
    integral float that fits 64 bits into an integer.  The characters of
    the model beyond ASCII are read the way Python's [surrogateescape]
    reads bytes beyond ASCII: the character of code [128 + k] is the lone
    surrogate [U+DC80 + k].  Such a character has no UTF-8 encoding, so
    the sqlite3 module refuses a str that holds one; SQLite's length limit
    is not reproduced.  Floats are printed as [m*2**e] and strs inside
    containers without escapes, which is not what Python prints; no
    statement below depends on it. *)

Module Ascii_platform.

Definition is_space (c : ascii) : bool :=
  let n := Z.of_nat (nat_of_ascii c) in
  ((9 <=? n) && (n <=? 13)) || ((28 <=? n) && (n <=? 32)).

Fixpoint lstrip (s : string) : string :=
  match s with
  | EmptyString => EmptyString
  | String c s' => if is_space c then lstrip s' else s
  end.

Fixpoint rstrip (s : string) : string :=
  match s with
  | EmptyString => EmptyString
  | String c s' =>
      let r := rstrip s' in
      if is_space c && (r =? "")%string then EmptyString else String c r
  end.

Definition strip (s : string) : string := rstrip (lstrip s).

Definition digit (c : ascii) : option Z :=
  let n := Z.of_nat (nat_of_ascii c) in
  if (48 <=? n) && (n <=? 57) then Some (n - 48) else None.

(** Digits with single underscores between them; [after_digit] tells
    whether the previous character was a digit. *)
Fixpoint digits (s : string) (acc : Z) (after_digit : bool) : option Z :=
  match s with
  | EmptyString => if after_digit then Some acc else None
  | String c s' =>
      match digit c with
      | Some k => digits s' (10 * acc + k) true
      | None =>
          if (c =? "_")%char && after_digit then digits s' acc false else None
      end
  end.

Definition signed (num : string -> option Z) (s : string) : option Z :=
  match s with
  | String "+" r => num r
  | String "-" r => option_map Z.opp (num r)
  | _ => num s
  end.

Definition int_of_str (s : string) : option Z :=
  signed (fun r => digits r 0 false) (strip s).

Fixpoint plain_digits (s : string) (acc : Z) (after_digit : bool) : option Z :=
  match s with
  | EmptyString => if after_digit then Some acc else None
  | String c s' =>
      match digit c with
      | Some k => plain_digits s' (10 * acc + k) true
      | None => None
      end
  end.

Definition exact_int (f : spec_float) : option Z :=
  match f with
  | S754_zero _ => Some 0
  | S754_finite s m e =>
      let a := if 0 <=? e then Some (Z.pos m * 2 ^ e)
               else if Z.pos m mod 2 ^ (- e) =? 0 then Some (Z.pos m / 2 ^ (- e))
               else None in
      option_map (fun a => if s then - a else a) a
  | _ => None
  end.

Definition integer_affinity (v : sql_value) : sql_value :=
  let fit (n : option Z) :=
    match n with
    | Some n => if sqlite_int n then SInteger n else v
    | None => v
    end in
  match v with
  | SText s => fit (signed (fun r => plain_digits r 0 false) s)
  | SReal f => fit (exact_int f)
  | _ => v
  end.

Definition is_surrogate (c : ascii) : bool := (128 <=? nat_of_ascii c)%nat.

Fixpoint has_surrogate (s : string) : bool :=
  match s with
  | EmptyString => false
  | String c s' => is_surrogate c || has_surrogate s'
  end.

Definition text_error (s : string) : option exn :=
  if has_surrogate s then Some UnicodeEncodeError else None.

Definition repr_float (f : spec_float) : string :=
  match f with
  | S754_zero s => if s then "-0.0" else "0.0"
  | S754_infinity s => if s then "-inf" else "inf"
  | S754_nan => "nan"
  | S754_finite s m e =>
      (if s then "-" else "") ++ str_int (Z.pos m) ++ "*2**" ++ str_int e
  end.

Fixpoint repr (v : json) : string :=
  match v with
  | JNull => "None"
  | JBool true => "True"
  | JBool false => "False"
  | JInt n => str_int n
  | JFloat f => repr_float f
  | JStr s => "'" ++ s ++ "'"
  | JList l =>
      "[" ++ (fix items (l : list json) : string :=
                match l with
                | [] => ""
                | x :: r =>
                    match r with
                    | [] => repr x
                    | _ :: _ => repr x ++ ", " ++ items r
                    end
                end) l ++ "]"
  | JDict kv =>
      "{" ++ (fix items (kv : list (string * json)) : string :=
                match kv with
                | [] => ""
                | (k, x) :: r =>
                    match r with
                    | [] => "'" ++ k ++ "': " ++ repr x
                    | _ :: _ => "'" ++ k ++ "': " ++ repr x ++ ", " ++ items r
                    end
                end) kv ++ "}"
  end.

End Ascii_platform.

Definition ascii_platform : Platform :=
  {| strip := Ascii_platform.strip;
     strip_empty := eq_refl;
     int_of_str := Ascii_platform.int_of_str;
     repr := Ascii_platform.repr;
     text_error := Ascii_platform.text_error;
     integer_affinity := Ascii_platform.integer_affinity |}.

(** ** Sample requests, worlds and tables *)

Module Samples.
Import OrderService.

Definition order_request (user_id item amount : json) : request :=
  {| get_json := JDict [("user_id", user_id); ("item", item); ("amount", amount)] |}.

(** [{"user_id": 1, "item": "widget", "amount": 10}] *)
Definition widget : request := order_request (JInt 1) (JStr "widget") (JInt 10).


(** [{"user_id": 1, "item": 5, "amount": -1}] *)
Definition number_item : request := order_request (JInt 1) (JInt 5) (JInt (-1)).

(** [{"amount": 1e999}], which Python reads as the float infinity *)
Definition infinite_amount : request :=
  {| get_json := JDict [("amount", JFloat (S754_infinity false))] |}.

(** [{"status": "shipped"}] *)
Definition ship : request := {| get_json := JDict [("status", JStr "shipped")] |}.

(** The JSON array [[1]] as a body. *)
Definition array_body : request := {| get_json := JList [JInt 1] |}.

Definition user_1 : json :=
  JDict [("id", JInt 1); ("name", JStr "Ann"); ("email", JStr "ann@example.org");
         ("created_at", JStr "2026-01-01T00:00:00+00:00")].

(** User 1 exists and the notification is delivered. *)
Definition world_ok : env :=
  {| utc_now_iso := "2026-01-02T03:04:05+00:00";
     user_service := fun _ => Response 200 "" (Some user_1);
     notification_service := fun _ => Response 201 "" None |}.

(** The user service answers 404. *)
Definition world_no_user : env :=
  {| utc_now_iso := "2026-01-02T03:04:05+00:00";
     user_service := fun _ => Response 404 "" None;
     notification_service := fun _ => Response 201 "" None |}.

(** The notification service answers 500. *)
Definition world_notify_500 : env :=
  {| utc_now_iso := "2026-01-02T03:04:05+00:00";
     user_service := fun _ => Response 200 "" (Some user_1);
     notification_service := fun _ => Response 500 "boom" None |}.


(** The row of the first widget order. *)
Definition order_1 : order :=
  {| id := 1; user_id := 1; item := "widget"; amount := 10; status := "created";
     created_at := "2026-01-02T03:04:05+00:00" |}.

(** The table holding only [order_1]. *)
Definition one_order : db := {| rows := [order_1]; seq := 1 |}.

(** [{"message": "hi", "user_id": "nobody"}]: no order id, and a user id
    that is not a number. *)
Definition loose_notification : request :=
  {| get_json := JDict [("message", JStr "hi"); ("user_id", JStr "nobody")] |}.



(** The notification service at a clock reading, its standard output
    open. *)
Definition notifier : NotificationService.env :=
  {| NotificationService.utc_now_iso := "2026-01-02T03:04:05+00:00";
     NotificationService.stdout := fun _ => None |}.

(** The same with standard output closed: every [print] raises. *)
Definition notifier_closed : NotificationService.env :=
  {| NotificationService.utc_now_iso := "2026-01-02T03:04:05+00:00";
     NotificationService.stdout := fun _ => Some OSError |}.

(** The str ["\udc80"], a lone surrogate, as [ascii_platform] reads it. *)
Definition lone_surrogate : string := String (ascii_of_nat 128) EmptyString.

End Samples.

(** ** Further sample requests, worlds and tables *)

Module MoreSamples.
Import Samples.

(** [{"user_id": "abc", "item": "x", "amount": 1}] *)
Definition bad_user_id : request :=
  order_request (JStr "abc") (JStr "x") (JInt 1).

(** [{"status": " "}] *)
Definition blank_status : request :=
  {| get_json := JDict [("status", JStr " ")] |}.

(** The user service answers 200 with the body [null]. *)
Definition world_null_user : OrderService.env :=
  {| OrderService.utc_now_iso := "2026-01-02T03:04:05+00:00";
     OrderService.user_service := fun _ => Response 200 "null" (Some JNull);
     OrderService.notification_service := fun _ => Response 201 "" None |}.

(** The user service answers 503 with a long text. *)
Definition world_user_503 : OrderService.env :=
  {| OrderService.utc_now_iso := "2026-01-02T03:04:05+00:00";
     OrderService.user_service := fun _ => Response 503 "busy" None;
     OrderService.notification_service := fun _ => Response 201 "" None |}.

(** [{"name": " Ann ", "email": "ann@example.org"}] *)
Definition ann : request :=
  {| get_json := JDict [("name", JStr " Ann "); ("email", JStr "ann@example.org")] |}.

(** [{"name": "Bob"}]: no email. *)
Definition bob_without_email : request :=
  {| get_json := JDict [("name", JStr "Bob")] |}.

(** [{"email": "ann@example.org"}] *)
Definition take_ann_email : request :=
  {| get_json := JDict [("email", JStr "ann@example.org")] |}.

(** [{"name": ""}] *)
Definition empty_name : request := {| get_json := JDict [("name", JStr "")] |}.

Definition user_ann : UserService.user :=
  {| UserService.id := 1; UserService.name := "Ann";
     UserService.email := "ann@example.org";
     UserService.created_at := "2026-01-01T00:00:00+00:00" |}.


(** The users table holding Ann. *)
Definition users_ann : UserService.db :=
  {| UserService.rows := [user_ann]; UserService.seq := 1 |}.


Section Deployed.
Context {P : Platform}.

End Deployed.

End MoreSamples.

(** * Properties of the order service *)

Lemma find_snoc_fresh {A : Type} (f : A -> bool) (l : list A) (x : A) :
  (forall y, In y l -> f y = false) -> f x = true ->
  find f (l ++ [x])%list = Some x.
Proof.
  intros Hl Hx. induction l as [|y l IH]; simpl.
  - now rewrite Hx.
  - rewrite (Hl y (or_introl eq_refl)). apply IH. intros z Hz. apply Hl. now right.
Qed.


Section OrderStore.
Import OrderService.
Context {P : Platform}.

Lemma sqlite_int_spec n : sqlite_int n = true <-> INT64_MIN <= n <= INT64_MAX.
Proof. unfold sqlite_int. rewrite andb_true_iff, !Z.leb_le. tauto. Qed.

Lemma bind_int_ok n : sqlite_int n = true -> bind_int n = Ok n.
Proof. unfold bind_int. now intros ->. Qed.

Lemma bind_int_inv n m : bind_int n = Ok m -> m = n /\ sqlite_int n = true.
Proof. unfold bind_int. destruct (sqlite_int n); now inversion 1. Qed.

Lemma bind_text_ok s : sqlite_text s = true -> bind_text s = Ok s.
Proof. unfold sqlite_text, bind_text. now destruct (text_error s). Qed.

Lemma bind_text_inv s t : bind_text s = Ok t -> t = s /\ sqlite_text s = true.
Proof. unfold sqlite_text, bind_text. destruct (text_error s); now inversion 1. Qed.

(** A str the module does not bind makes [execute] raise. *)
Lemma bind_text_raises s :
  sqlite_text s = false -> exists e, text_error s = Some e /\ bind_text s = Raise e.
Proof.
  unfold sqlite_text, bind_text. destruct (text_error s) as [e|]; [eauto|discriminate].
Qed.

Lemma max_rowid_ge l o : In o l -> id o <= max_rowid l.
Proof.
  induction l as [|x l IH]; simpl; [easy|].
  intros [->|H]; [|specialize (IH H)]; lia.
Qed.

Lemma max_rowid_nonneg l : 0 <= max_rowid l.
Proof. induction l; simpl; lia. Qed.

(** The rowid [AUTOINCREMENT] hands out is above every rowid in the table. *)
Lemma fresh_rowid d o :
  In o (rows d) -> id o < Z.max (seq d) (max_rowid (rows d)) + 1.
Proof. intros H. apply max_rowid_ge in H. lia. Qed.

Lemma insert_order_ok d uid it amt st ts :
  sqlite_int uid = true -> sqlite_text it = true -> sqlite_int amt = true ->
  Z.max (seq d) (max_rowid (rows d)) < INT64_MAX ->
  let new := Z.max (seq d) (max_rowid (rows d)) + 1 in
  insert_order d uid it amt st ts =
  Ok (new, {| rows := (rows d ++ [ {| id := new; user_id := uid; item := it;
                                      amount := amt; status := st;
                                      created_at := ts |} ])%list;
              seq := new |}).
Proof.
  intros Hu Hi Ha Ht. unfold insert_order.
  rewrite (bind_int_ok _ Hu), (bind_text_ok _ Hi), (bind_int_ok _ Ha). simpl.
  apply Z.ltb_lt in Ht. now rewrite Ht.
Qed.

Lemma insert_order_inv d uid it amt st ts new d' :
  insert_order d uid it amt st ts = Ok (new, d') ->
  sqlite_int uid = true /\ sqlite_text it = true /\ sqlite_int amt = true /\
  new = Z.max (seq d) (max_rowid (rows d)) + 1 /\ new <= INT64_MAX /\
  d' = {| rows := (rows d ++ [ {| id := new; user_id := uid; item := it;
                                  amount := amt; status := st;
                                  created_at := ts |} ])%list;
          seq := new |}.
Proof.
  unfold insert_order, bind_int, bind_text, sqlite_text.
  destruct (sqlite_int uid); [|discriminate].
  destruct (text_error it); [discriminate|].
  destruct (sqlite_int amt); [|discriminate]. simpl.
  destruct (Z.ltb_spec (Z.max (seq d) (max_rowid (rows d))) INT64_MAX);
    [|discriminate].
  inversion 1; subst. repeat split; lia.
Qed.

(** Read-your-write: the point lookup after the insert sees the new row. *)
Lemma select_inserted d o :
  (forall x, In x (rows d) -> id x < id o) -> id o <= INT64_MAX ->
  0 <= id o ->
  select_order {| rows := (rows d ++ [o])%list; seq := id o |} (id o) = Ok (Some o).
Proof.
  intros Hfresh Hmax Hmin. unfold select_order.
  rewrite bind_int_ok by (apply sqlite_int_spec; unfold INT64_MIN; lia).
  cbn [bind rows]. f_equal. apply find_snoc_fresh; [|apply Z.eqb_refl].
  intros x Hx. specialize (Hfresh x Hx). apply Z.eqb_neq. lia.
Qed.

End OrderStore.

Section OrderValidation.
Import OrderService.
Context {P : Platform}.




Lemma eqb_empty_false s : s <> "" -> (s =? "")%string = false.
Proof. intros H. now apply String.eqb_neq. Qed.


(** Conversely, what the checks establish. *)
Lemma validate_order_next req uid it amt :
  validate_order req = Next (uid, it, amt) ->
  exists kv s,
    py_or (get_json req) (JDict []) = JDict kv /\
    py_int (dict_get kv "user_id") = Ok uid /\
    dict_get kv "item" = JStr s /\ it = strip s /\ it <> "" /\
    py_int (dict_get kv "amount") = Ok amt /\ 0 < amt.
Proof.
  unfold validate_order.
  destruct (py_or (get_json req) (JDict [])) as [| | | | | |kv] eqn:Hb;
    try discriminate.
  simpl.
  destruct (py_strip (py_or (dict_get kv "item") (JStr ""))) as [it'|] eqn:Hs;
    [|discriminate].
  simpl.
  destruct (is_none (dict_get kv "user_id") || (it' =? "")%string
            || is_none (dict_get kv "amount")) eqn:Hreq; [discriminate|].
  apply orb_false_iff in Hreq as [Hreq Hna].
  apply orb_false_iff in Hreq as [Hnu Hne].
  destruct (py_int (dict_get kv "user_id")) as [u|[]] eqn:Hu; try discriminate.
  simpl.
  destruct (py_int (dict_get kv "amount")) as [a|[]] eqn:Ha; try discriminate.
  simpl. destruct (Z.leb_spec a 0) as [Hle|Hpos]; [discriminate|].
  intros H. injection H as -> -> ->.
  apply String.eqb_neq in Hne.
  assert (exists s, dict_get kv "item" = JStr s /\ it = strip s) as (s & Hi & ->).
  { unfold py_or in Hs. destruct (truthy (dict_get kv "item")) eqn:Ht.
    - destruct (dict_get kv "item"); try discriminate. injection Hs as <-. eauto.
    - simpl in Hs. injection Hs as <-. now rewrite strip_empty in Hne. }
  exists kv, s. auto 10.
Qed.
End OrderValidation.

Section CreateOrder.
Import OrderService.
Context {P : Platform}.

Lemma place_order_found w d uid it amt u :
  fetch_user w uid = Ok u -> is_none u = false ->
  sqlite_int uid = true -> sqlite_text it = true -> sqlite_int amt = true ->
  Z.max (seq d) (max_rowid (rows d)) < INT64_MAX ->
  let o := new_order w d uid it amt in
  let r := send_notification w uid (id o) (creation_message (id o) uid) in
  place_order w d uid it amt =
  Ok ((Json (JDict (created_body o (fst r) (snd r))), 201),
      {| rows := (rows d ++ [o])%list; seq := id o |}).
Proof.
  intros Hf Hu Hsu Hsi Hsa Htop o r. unfold place_order.
  rewrite Hf. simpl. rewrite Hu.
  rewrite insert_order_ok by assumption. cbn [bind].
  fold (new_order w d uid it amt). fold o.
  change (Z.max (seq d) (max_rowid (rows d)) + 1) with (id o).
  rewrite select_inserted.
  - cbn [bind]. fold r. destruct r as [ok [e|]]; cbn [fst snd].
    + unfold created_body. destruct (e =? "")%string; reflexivity.
    + reflexivity.
  - intros x Hx. now apply fresh_rowid.
  - simpl. lia.
  - simpl. pose proof (max_rowid_nonneg (rows d)). lia.
Qed.

Lemma create_order_validated req w d uid it amt :
  validate_order req = Next (uid, it, amt) ->
  create_order req w d = serve d (place_order w d uid it amt).
Proof. intros H. unfold create_order. now rewrite H. Qed.



(** C2.  For a request that passes the local checks: a transport failure
    of the user lookup answers 503 with the [UpstreamUnavailable] body; a
    404 from the user service answers 400 with "User does not exist."; any
    other status but 200 answers 502 with the [UpstreamBadResponse] body
    that carries the service name and the status code.  In all three the
    table is returned as it was. *)
Theorem user_check_failures req w d uid it amt :
  validate_order req = Next (uid, it, amt) ->
  match user_service w uid with
  | RequestException text =>
      create_order req w d =
      ((Json (JDict [("error", JStr "Service Unavailable");
                     ("message", JStr "user-service is unavailable.");
                     ("details", JStr text)]), 503), d)
  | Response status_code text _ =>
      (status_code = 404 ->
       create_order req w d =
       ((Json (JDict [("error", JStr "Bad Request");
                      ("message", JStr "User does not exist.")]), 400), d))
      /\ (status_code <> 404 -> status_code <> 200 ->
          create_order req w d =
          ((Json (JDict [("error", JStr "Bad Gateway");
                         ("message",
                          JStr "user-service returned an unexpected response.");
                         ("status_code", JInt status_code);
                         ("body", JStr (substring 0 1000 text))]), 502), d))
  end.
Proof.
  intros Hv. rewrite (create_order_validated _ _ _ _ _ _ Hv).
  unfold place_order, fetch_user.
  destruct (user_service w uid) as [text|code text js]; [reflexivity|].
  split.
  - intros ->. reflexivity.
  - intros H404 H200. apply Z.eqb_neq in H404, H200. now rewrite H404, H200.
Qed.

(** The table changes only when the answer is 201. *)
Theorem create_order_writes_only_on_201 req w d :
  snd (fst (create_order req w d)) <> 201 -> snd (create_order req w d) = d.
Proof.
  unfold create_order.
  destruct (validate_order req) as [[resp|[[uid it] amt]]|e];
    cbn [bind serve fst snd]; try reflexivity.
  unfold place_order.
  destruct (fetch_user w uid) as [u|]; cbn [bind serve fst snd]; try reflexivity.
  destruct (is_none u); cbn [bind serve fst snd]; try reflexivity.
  destruct (insert_order _ _ _ _ _ _) as [[new d1]|];
    cbn [bind serve fst snd]; try reflexivity.
  destruct (select_order d1 new) as [[r|]|]; cbn [bind serve fst snd];
    try reflexivity.
  destruct (send_notification _ _ _ _) as [ok err]. cbn [fst snd].
  intros H. now elim H.
Qed.

(** The checks of [create_order] in their order, for a body that is an
    object and an [item] that is a str or a false value.  A check of
    [user_id] or [amount] answers 400 when [int] raises [TypeError] or
    [ValueError]; the [OverflowError] that [int] raises on an infinite
    float is not caught and is answered with 500.  No answer here writes
    a row. *)
Theorem create_order_rejects req w d kv it :
  py_or (get_json req) (JDict []) = JDict kv ->
  py_strip (py_or (dict_get kv "item") (JStr "")) = Ok it ->
  let user_id := dict_get kv "user_id" in
  let amount := dict_get kv "amount" in
  (is_none user_id = true \/ it = "" \/ is_none amount = true ->
   create_order req w d
   = (bad_request "Fields 'user_id', 'item', and 'amount' are required.", d))
  /\ (is_none user_id = false -> it <> "" -> is_none amount = false ->
      (py_int user_id = Raise TypeError \/ py_int user_id = Raise ValueError ->
       create_order req w d
       = (bad_request "Field 'user_id' must be an integer.", d))
      /\ (py_int user_id = Raise OverflowError ->
          create_order req w d = ((ServerError OverflowError, 500), d))
      /\ (forall uid, py_int user_id = Ok uid ->
          (py_int amount = Raise TypeError \/ py_int amount = Raise ValueError ->
           create_order req w d
           = (bad_request "Field 'amount' must be an integer.", d))
          /\ (py_int amount = Raise OverflowError ->
              create_order req w d = ((ServerError OverflowError, 500), d))
          /\ (forall amt, py_int amount = Ok amt -> amt <= 0 ->
              create_order req w d
              = (bad_request "Field 'amount' must be > 0.", d)))).
Proof.
  intros Hb Hit user_id amount. unfold create_order, validate_order.
  rewrite Hb. cbn [py_get bind]. rewrite Hit. cbn [bind].
  fold user_id amount. split.
  - intros H.
    assert (E : is_none user_id || (it =? "")%string || is_none amount = true).
    { destruct H as [->|[->| ->]]; [reflexivity| |apply orb_true_r].
      rewrite String.eqb_refl. now rewrite orb_true_r. }
    now rewrite E.
  - intros Hu Hne Ha. rewrite Hu, Ha, (eqb_empty_false _ Hne). cbn [orb].
    split; [|split].
    + now intros [-> | ->].
    + now intros ->.
    + intros uid ->. cbn [bind_early]. split; [|split].
      * now intros [-> | ->].
      * now intros ->.
      * intros amt -> Hle. unfold Next. cbn [bind_early].
        apply Z.leb_le in Hle. now rewrite Hle.
Qed.

(** C4, the defect.  [{"user_id": 1, "item": 5, "amount": -1}] has a
    non-positive amount, yet the answer is 500 instead of the 400 of the
    amount rule: [strip] is called on the int 5.  The table is
    unchanged. *)
Theorem create_order_number_item w d :
  create_order Samples.number_item w d = ((ServerError AttributeError, 500), d).
Proof. reflexivity. Qed.

Lemma handle_error_not_201 e : snd (handle_error e) <> 201.
Proof. destruct e; simpl; lia. Qed.

Lemma send_notification_ok w uid oid msg err :
  send_notification w uid oid msg = (true, err) -> err = None.
Proof.
  unfold send_notification.
  destruct (notification_service w _) as [text|code text js]; [discriminate|].
  destruct (negb _); now inversion 1.
Qed.

Lemma place_order_201 w d uid it amt b d' :
  place_order w d uid it amt = Ok ((b, 201), d') ->
  let o := new_order w d uid it amt in
  let r := send_notification w uid (id o) (creation_message (id o) uid) in
  b = Json (JDict (created_body o (fst r) (snd r)))
  /\ d' = {| rows := (rows d ++ [o])%list; seq := id o |}.
Proof.
  intros H o r. pose proof H as H'. unfold place_order in H'.
  destruct (fetch_user w uid) as [u|] eqn:Hf; [|discriminate]. simpl in H'.
  destruct (is_none u) eqn:Hu; [discriminate|].
  destruct (insert_order d uid it amt "created" (utc_now_iso w))
    as [[new d1]|] eqn:Hins; [|discriminate].
  apply insert_order_inv in Hins as (Hsu & Hsi & Hsa & Hnew & Hmax & Hd1).
  assert (Htop : Z.max (seq d) (max_rowid (rows d)) < INT64_MAX) by lia.
  rewrite (place_order_found w d uid it amt u Hf Hu Hsu Hsi Hsa Htop) in H.
  injection H as <- <-. now split.
Qed.

(** Every early [return] of the checks is a 400. *)
Lemma validate_order_return req resp :
  validate_order req = Return resp -> exists msg, resp = bad_request msg.
Proof.
  unfold validate_order, Return, Next.
  destruct (py_get _ "user_id") as [u|]; [|discriminate]. cbn [bind].
  destruct (py_get _ "item") as [i|]; [|discriminate]. cbn [bind].
  destruct (py_strip _) as [it|]; [|discriminate]. cbn [bind].
  destruct (py_get _ "amount") as [a|]; [|discriminate]. cbn [bind].
  destruct (_ || _); [inversion 1; eauto|].
  destruct (py_int u) as [n|[]]; cbn [bind_early]; try discriminate;
    try (inversion 1; eauto; fail).
  destruct (py_int a) as [m|[]]; cbn [bind_early]; try discriminate;
    try (inversion 1; eauto; fail).
  destruct (m <=? 0); inversion 1; eauto.
Qed.

Lemma create_order_201 req w d b d' :
  create_order req w d = ((b, 201), d') ->
  exists uid it amt,
    validate_order req = Next (uid, it, amt)
    /\ place_order w d uid it amt = Ok ((b, 201), d').
Proof.
  unfold create_order. intros H.
  destruct (validate_order req) as [[resp|[[uid it] amt]]|e] eqn:Hv; simpl in H.
  - apply validate_order_return in Hv as [msg ->]. discriminate.
  - exists uid, it, amt. split; [reflexivity|].
    destruct (place_order w d uid it amt) as [r|e]; simpl in H.
    + now subst r.
    + exfalso. apply (handle_error_not_201 e). injection H as Hr _.
      now rewrite Hr.
  - exfalso. apply (handle_error_not_201 e). injection H as Hr _.
    now rewrite Hr.
Qed.

(** The two outcomes of a dispatch, and what [send_notification] returns
    for each. *)
Lemma dispatch_delivered_or_fails r : dispatch_delivered r \/ dispatch_fails r.
Proof.
  destruct r as [text|code text js]; cbn; [now right|].
  destruct (Z.eq_dec code 200); [now left; left|].
  destruct (Z.eq_dec code 201); [now left; right|now right].
Qed.

Lemma dispatch_not_both r : dispatch_delivered r -> dispatch_fails r -> False.
Proof. destruct r as [text|code text js]; cbn; [easy|]. intros [H|H] [H1 H2]; auto. Qed.

Lemma send_notification_delivered w uid oid msg :
  dispatch_delivered (notification_service w (notification_payload uid oid msg)) ->
  send_notification w uid oid msg = (true, None).
Proof.
  unfold send_notification, dispatch_delivered.
  destruct (notification_service w _) as [text|code text js]; [easy|].
  now intros [-> | ->].
Qed.

Lemma send_notification_fails w uid oid msg :
  dispatch_fails (notification_service w (notification_payload uid oid msg)) ->
  exists detail,
    send_notification w uid oid msg = (false, Some detail)
    /\ (forall text,
          notification_service w (notification_payload uid oid msg)
          = RequestException text -> detail = text)
    /\ (forall code text js,
          notification_service w (notification_payload uid oid msg)
          = Response code text js ->
          detail = "Unexpected status " ++ str_int code ++ ": " ++ substring 0 500 text
          /\ detail <> "").
Proof.
  unfold send_notification, dispatch_fails.
  destruct (notification_service w _) as [text|code text js].
  - intros _. exists text. split; [reflexivity|]. split; [|discriminate].
    now intros text' [= <-].
  - intros [H200 H201]. apply Z.eqb_neq in H200, H201. rewrite H200, H201.
    simpl. eexists. split; [reflexivity|]. split; [discriminate|].
    intros code' text' js' [= <- <- _]. split; [reflexivity|discriminate].
Qed.

(** C10.  Every 201 answer of [create_order] is the inserted row with
    [notification_sent] set to the flag [send_notification] returned.
    When the dispatch delivered, that is the notification service
    completed the call with status 200 or 201, the flag is true and the
    body has no [notification_error] key; when the dispatch failed the
    flag is false.  The key is present exactly when the returned error
    detail is a non-empty str. *)
Theorem notification_error_key req w d b d' :
  create_order req w d = ((b, 201), d') ->
  exists o ok err,
    In o (rows d')
    /\ send_notification w (user_id o) (id o)
                         (creation_message (id o) (user_id o)) = (ok, err)
    /\ b = Json (JDict (created_body o ok err))
    /\ dict_get (created_body o ok err) "notification_sent" = JBool ok
    /\ (let r := notification_service w
                   (notification_payload (user_id o) (id o)
                      (creation_message (id o) (user_id o))) in
        (dispatch_delivered r ->
         ok = true /\ err = None
         /\ dict_get (created_body o ok err) "notification_sent" = JBool true
         /\ dict_has (created_body o ok err) "notification_error" = false)
        /\ (dispatch_fails r ->
            ok = false
            /\ dict_get (created_body o ok err) "notification_sent" = JBool false))
    /\ (ok = true -> dict_has (created_body o ok err) "notification_error" = false)
    /\ (dict_has (created_body o ok err) "notification_error" = true
        <-> exists e, err = Some e /\ e <> "").
Proof.
  intros H. apply create_order_201 in H as (uid & it & amt & _ & H).
  apply place_order_201 in H as [-> ->].
  set (o := new_order w d uid it amt).
  destruct (send_notification w uid (id o) (creation_message (id o) uid))
    as [ok err] eqn:Hs.
  exists o, ok, err. cbn [fst snd rows].
  split; [apply in_or_app; right; now left|].
  split; [exact Hs|]. split; [reflexivity|]. split; [reflexivity|].
  split; [|split].
  - cbn zeta. change (user_id o) with uid. split.
    + intros Hd. rewrite (send_notification_delivered _ _ _ _ Hd) in Hs.
      injection Hs as <- <-. repeat split.
    + intros Hf. destruct (send_notification_fails _ _ _ _ Hf) as (detail & Hd & _).
      rewrite Hd in Hs. injection Hs as <- <-. split; reflexivity.
  - intros ->. now rewrite (send_notification_ok _ _ _ _ _ Hs).
  - destruct err as [e|]; simpl.
    + destruct (String.eqb_spec e ""); simpl; split.
      * discriminate.
      * intros (e' & [= <-] & Hne). contradiction.
      * eauto.
      * reflexivity.
    + split; [discriminate|]. now intros (e & [=] & _).
Qed.


End CreateOrder.

Section UpdateOrder.
Import OrderService.
Context {P : Platform}.

Lemma update_fields_none :
  update_fields JNull JNull JNull
  = Return (bad_request "No updatable fields provided.").
Proof. reflexivity. Qed.

Lemma update_fields_return st it am resp :
  update_fields st it am = Return resp -> exists msg, resp = bad_request msg.
Proof.
  unfold update_fields, Return, Next.
  destruct (is_none st); cbn [negb bind_early];
    [|destruct (_ =? "")%string; cbn [bind_early]; [inversion 1; eauto|]];
    (destruct (is_none it); cbn [negb bind_early];
     [|destruct (_ =? "")%string; cbn [bind_early]; [inversion 1; eauto|]]);
    (destruct (is_none am); cbn [negb bind_early];
     [|destruct (py_int am) as [n|[]]; cbn [bind_early]; try discriminate;
       try (inversion 1; eauto; fail);
       destruct (n <=? 0); cbn [bind_early]; try (inversion 1; eauto; fail)]);
    cbn [app]; try (inversion 1; eauto; fail).
Qed.

Lemma update_fields_next st it am fields :
  update_fields st it am = Next fields ->
  exists n,
    (is_none am = false -> py_int am = Ok n)
    /\ fields = ((if is_none st then [] else [SetStatus (strip (py_str st))])
                 ++ (if is_none it then [] else [SetItem (strip (py_str it))])
                 ++ (if is_none am then [] else [SetAmount n]))%list
    /\ Forall assignment_ok fields.
Proof.
  unfold update_fields, Return, Next.
  destruct (is_none st); cbn [negb bind_early];
    [|destruct (String.eqb_spec (strip (py_str st)) "") as [?|Hst];
      cbn [bind_early]; [discriminate|]];
    (destruct (is_none it); cbn [negb bind_early];
     [|destruct (String.eqb_spec (strip (py_str it)) "") as [?|Hit];
       cbn [bind_early]; [discriminate|]]);
    (destruct (is_none am); cbn [negb bind_early];
     [|destruct (py_int am) as [m|[]]; cbn [bind_early]; try discriminate;
       destruct (Z.leb_spec m 0) as [?|Hm]; cbn [bind_early];
       try discriminate]);
    cbn [app]; try discriminate;
    intros [= <-];
    first [ exists m | exists 0 ];
    (split; [first [reflexivity | discriminate]|]);
    (split; [reflexivity|]);
    repeat constructor; simpl; auto; lia.
Qed.

Lemma bind_assignments_ok fields :
  Forall bindable fields -> bind_assignments fields = Ok fields.
Proof.
  induction 1 as [|a l Ha _ IH]; [reflexivity|]. simpl. rewrite IH.
  destruct a; simpl in *;
    [now rewrite (bind_text_ok _ Ha)|now rewrite (bind_text_ok _ Ha)|
     now rewrite (bind_int_ok _ Ha)].
Qed.

Lemma bind_assignments_inv fields fields' :
  bind_assignments fields = Ok fields' ->
  fields' = fields /\ Forall bindable fields.
Proof.
  revert fields'. induction fields as [|a l IH]; simpl; intros fields' H.
  - now injection H as <-.
  - destruct (bind_assignment a) as [a'|] eqn:Ha; [|discriminate].
    simpl in H. destruct (bind_assignments l) as [l'|]; [|discriminate].
    injection H as <-. destruct (IH l' eq_refl) as [-> Hl].
    destruct a as [t|t|n]; simpl in Ha.
    + destruct (bind_text t) as [t'|] eqn:Ht; [|discriminate].
      injection Ha as <-. apply bind_text_inv in Ht as [-> Ht].
      split; [reflexivity|]. now constructor.
    + destruct (bind_text t) as [t'|] eqn:Ht; [|discriminate].
      injection Ha as <-. apply bind_text_inv in Ht as [-> Ht].
      split; [reflexivity|]. now constructor.
    + destruct (bind_int n) as [m|] eqn:Hn; [|discriminate].
      injection Ha as <-. apply bind_int_inv in Hn as [-> Hn].
      split; [reflexivity|]. now constructor.
Qed.

Lemma update_rows_inv d fields k d' :
  update_rows d fields k = Ok d' ->
  Forall bindable fields /\ sqlite_int k = true /\
  d' = {| rows := map (fun o => if id o =? k then fold_left assign fields o else o)
                      (rows d);
          seq := seq d |}.
Proof.
  unfold update_rows. intros H.
  destruct (bind_assignments fields) as [f'|] eqn:Hf; [|discriminate].
  apply bind_assignments_inv in Hf as [-> Hf]. simpl in H.
  destruct (bind_int k) as [k'|] eqn:Hk; [|discriminate].
  apply bind_int_inv in Hk as [-> Hk]. simpl in H. now injection H as <-.
Qed.

Lemma update_rows_ok d fields k :
  Forall bindable fields -> sqlite_int k = true ->
  update_rows d fields k =
  Ok {| rows := map (fun o => if id o =? k then fold_left assign fields o else o)
                    (rows d);
        seq := seq d |}.
Proof.
  intros Hf Hk. unfold update_rows.
  now rewrite (bind_assignments_ok _ Hf), (bind_int_ok _ Hk).
Qed.

Lemma assign_id fields o : id (fold_left assign fields o) = id o.
Proof.
  revert o. induction fields as [|a l IH]; intros o; [reflexivity|].
  simpl. rewrite IH. now destruct a.
Qed.

Lemma find_updated (g : order -> order) k l :
  (forall o, id (g o) = id o) ->
  find (fun o => id o =? k) (map (fun o => if id o =? k then g o else o) l)
  = option_map g (find (fun o => id o =? k) l).
Proof.
  intros Hg. induction l as [|x l IH]; [reflexivity|]. simpl.
  destruct (id x =? k) eqn:E.
  - now rewrite Hg, E.
  - now rewrite E.
Qed.

Lemma assign_requested o st it am n :
  fold_left assign
    ((if is_none st then [] else [SetStatus (strip (py_str st))])
     ++ (if is_none it then [] else [SetItem (strip (py_str it))])
     ++ (if is_none am then [] else [SetAmount n]))%list o
  = updated_order o st it am n.
Proof.
  unfold updated_order.
  destruct (is_none st), (is_none it), (is_none am), o; reflexivity.
Qed.

Lemma update_order_object order_id req d kv :
  py_or (get_json req) (JDict []) = JDict kv ->
  update_order order_id req d =
  serve d (existing <- select_order d order_id ;;
           match existing with
           | None => Ok (not_found, d)
           | Some _ =>
               v <- update_fields (dict_get kv "status") (dict_get kv "item")
                                  (dict_get kv "amount") ;;
               match v with
               | inl resp => Ok (resp, d)
               | inr fields =>
                   d' <- update_rows d fields order_id ;;
                   row <- select_order d' order_id ;;
                   match row with
                   | None => Raise TypeError
                   | Some r => Ok ((Json (JDict (dict_of_row r)), 200), d')
                   end
               end
           end).
Proof. intros H. unfold update_order. now rewrite H. Qed.

(** C5, as amended.  For a body that is a JSON object (or is missing,
    malformed or false, which the view reads as the empty object) and an
    identifier that fits 64 bits signed: when no order has the identifier
    the answer is 404 whatever the object holds; when an order has it and
    none of [status], [item], [amount] is present the answer is 400 with
    "No updatable fields provided." and the table is unchanged. *)
Theorem update_order_missing_or_empty order_id req d kv :
  py_or (get_json req) (JDict []) = JDict kv ->
  sqlite_int order_id = true ->
  (find (fun o => id o =? order_id) (rows d) = None ->
   update_order order_id req d =
   ((Json (JDict [("error", JStr "Not Found");
                  ("message", JStr "Order not found.")]), 404), d))
  /\ (forall o,
        find (fun o => id o =? order_id) (rows d) = Some o ->
        dict_get kv "status" = JNull -> dict_get kv "item" = JNull ->
        dict_get kv "amount" = JNull ->
        update_order order_id req d =
        ((Json (JDict [("error", JStr "Bad Request");
                       ("message", JStr "No updatable fields provided.")]), 400),
         d)).
Proof.
  intros Hb Hk. rewrite (update_order_object _ _ _ _ Hb).
  unfold select_order. rewrite (bind_int_ok _ Hk). cbn [bind]. split.
  - now intros ->.
  - intros o -> -> -> ->. reflexivity.
Qed.

(** A supplied field that fails its check aborts the update with a 400
    and leaves the table as it was. *)
Theorem update_order_rejects order_id req d kv o resp :
  py_or (get_json req) (JDict []) = JDict kv ->
  sqlite_int order_id = true ->
  find (fun o => id o =? order_id) (rows d) = Some o ->
  update_fields (dict_get kv "status") (dict_get kv "item") (dict_get kv "amount")
  = Return resp ->
  update_order order_id req d = (resp, d) /\ exists msg, resp = bad_request msg.
Proof.
  intros Hb Hk Ho Hf. rewrite (update_order_object _ _ _ _ Hb).
  unfold select_order. rewrite (bind_int_ok _ Hk). cbn [bind]. rewrite Ho, Hf.
  split; [reflexivity|]. now apply update_fields_return in Hf.
Qed.

(** A successful update replaces exactly the supplied fields of the row
    and answers 200 with the refreshed row; [id], [user_id] and
    [created_at] are those of the old row. *)
Theorem update_order_applies order_id req d kv o fields :
  py_or (get_json req) (JDict []) = JDict kv ->
  sqlite_int order_id = true ->
  find (fun o => id o =? order_id) (rows d) = Some o ->
  let st := dict_get kv "status" in
  let it := dict_get kv "item" in
  let am := dict_get kv "amount" in
  update_fields st it am = Next fields ->
  Forall bindable fields ->
  exists n,
    (is_none am = false -> py_int am = Ok n /\ 0 < n)
    /\ update_order order_id req d =
       ((Json (JDict (dict_of_row (updated_order o st it am n))), 200),
        {| rows := map (fun x => if id x =? order_id
                                 then updated_order x st it am n else x) (rows d);
           seq := seq d |}).
Proof.
  intros Hb Hk Ho st it am Hf Hbind.
  rewrite (update_order_object _ _ _ _ Hb).
  unfold select_order at 1. rewrite (bind_int_ok _ Hk). cbn [bind]. rewrite Ho.
  fold st it am. rewrite Hf. cbn [bind Next].
  rewrite (update_rows_ok _ _ _ Hbind Hk). cbn [bind].
  destruct (update_fields_next _ _ _ _ Hf) as (n & Hn & -> & Hok).
  exists n. split.
  - intros Ham. split; [now apply Hn|]. rewrite Ham in Hok.
    apply Forall_app in Hok as [_ Hok]. apply Forall_app in Hok as [_ Hok].
    now inversion Hok.
  - unfold select_order. rewrite (bind_int_ok _ Hk). cbn [bind rows].
    rewrite find_updated by apply assign_id. rewrite Ho. cbn [option_map].
    rewrite assign_requested. cbn [serve]. do 2 f_equal. apply map_ext.
    intros x. now rewrite assign_requested.
Qed.
(** C6, the defect.  [{"amount": 1e999}] for an existing order is a
    non-integer amount, yet the answer is 500 instead of a 400: [int]
    raises [OverflowError] on the infinite float, which the view does not
    catch.  The table is unchanged. *)
Theorem update_order_infinite_amount :
  update_order 1 Samples.infinite_amount Samples.one_order
  = ((ServerError OverflowError, 500), Samples.one_order).
Proof. reflexivity. Qed.
End UpdateOrder.

Section Histories.
Import OrderService History.
Context {P : Platform}.

Lemma place_order_transition w d uid it amt resp d' :
  0 < amt ->
  place_order w d uid it amt = Ok (resp, d') -> transition d d'.
Proof.
  intros Hpos. unfold place_order.
  destruct (fetch_user w uid) as [u|]; [|discriminate]. cbn [bind].
  destruct (is_none u); [intros [= _ <-]; apply t_same|].
  destruct (insert_order d uid it amt "created" (utc_now_iso w))
    as [[new d1]|] eqn:Hins; [|discriminate].
  apply insert_order_inv in Hins as (_ & _ & _ & -> & _ & ->). cbn [bind].
  destruct (select_order _ _) as [[r|]|]; cbn [bind]; try discriminate.
  destruct (send_notification _ _ _ _) as [ok err].
  intros [= _ <-]. now apply t_insert.
Qed.

Lemma create_order_transition req w d : transition d (snd (create_order req w d)).
Proof.
  unfold create_order.
  destruct (validate_order req) as [[resp|[[uid it] amt]]|e] eqn:Hv;
    cbn [bind serve snd]; try apply t_same.
  apply validate_order_next in Hv as (kv & s & _ & _ & _ & _ & _ & _ & Hpos).
  destruct (place_order w d uid it amt) as [[resp d']|e] eqn:Hp;
    cbn [serve snd]; [|apply t_same].
  exact (place_order_transition _ _ _ _ _ _ _ Hpos Hp).
Qed.

Lemma update_order_transition order_id req d :
  transition d (snd (update_order order_id req d)).
Proof.
  unfold update_order.
  destruct (py_get _ "status") as [st|]; cbn [bind serve snd]; [|apply t_same].
  destruct (py_get _ "item") as [it|]; cbn [bind serve snd]; [|apply t_same].
  destruct (py_get _ "amount") as [am|]; cbn [bind serve snd]; [|apply t_same].
  destruct (select_order d order_id) as [[o|]|]; cbn [bind serve snd];
    try apply t_same.
  destruct (update_fields st it am) as [[resp|fields]|] eqn:Hf;
    cbn [bind serve snd]; try apply t_same.
  apply update_fields_next in Hf as (n & _ & _ & Hok).
  destruct (update_rows d fields order_id) as [d'|] eqn:Hu;
    cbn [bind serve snd]; [|apply t_same].
  apply update_rows_inv in Hu as (_ & _ & ->).
  destruct (select_order _ _) as [[r|]|]; cbn [bind serve snd];
    try apply t_same; now apply t_update.
Qed.

Lemma delete_order_transition order_id d :
  transition d (snd (delete_order order_id d)).
Proof.
  unfold delete_order, delete_rows.
  destruct (bind_int order_id) as [k|]; cbn [bind serve snd]; [|apply t_same].
  destruct (_ =? 0); cbn [snd]; apply t_delete.
Qed.

Lemma step_transition o d : transition d (snd (step o d)).
Proof.
  destruct o; cbn [step].
  - apply create_order_transition.
  - apply t_same.
  - unfold get_order. destruct (select_order d order_id) as [[r|]|];
      cbn [bind serve snd]; apply t_same.
  - apply update_order_transition.
  - apply delete_order_transition.
Qed.

Lemma assign_ok fields o :
  Forall assignment_ok fields -> row_ok o -> row_ok (fold_left assign fields o).
Proof.
  intros Hf. revert o. induction Hf as [|a l Ha _ IH]; intros o Ho; [exact Ho|].
  cbn [fold_left]. apply IH. destruct Ho as [Hamt Hst].
  destruct a; split; simpl in *; assumption.
Qed.

Lemma transition_rows_ok d d' :
  transition d d' -> Forall row_ok (rows d) -> Forall row_ok (rows d').
Proof.
  intros [|uid it amt ts Hpos new|fields k Hf|k] H; cbn [rows].
  - exact H.
  - apply Forall_app. split; [exact H|]. constructor; [|constructor].
    split; simpl; [exact Hpos|discriminate].
  - rewrite Forall_forall in H. apply Forall_forall. intros o' Ho'.
    apply in_map_iff in Ho' as (o & <- & Ho).
    destruct (id o =? k); [apply assign_ok|]; auto.
  - rewrite Forall_forall in H. apply Forall_forall. intros o Ho.
    apply filter_In in Ho as [Ho _]. auto.
Qed.

Lemma run_snoc ops o d : run (ops ++ [o]) d = snd (step o (run ops d)).
Proof. unfold run. now rewrite fold_left_app. Qed.

(** C7.  Every request keeps the invariant that each stored row has a
    positive amount and a non-empty status, and so every row of a table
    reached from the empty one by any sequence of requests has both. *)
Theorem order_invariant :
  (forall o d, Forall row_ok (rows d) -> Forall row_ok (rows (snd (step o d))))
  /\ (forall ops, Forall row_ok (rows (run ops empty_db))).
Proof.
  assert (Hstep : forall o d, Forall row_ok (rows d) ->
                              Forall row_ok (rows (snd (step o d)))).
  { intros o d. apply transition_rows_ok, step_transition. }
  split; [exact Hstep|].
  intros ops. induction ops as [|o ops IH] using rev_ind.
  - constructor.
  - rewrite run_snoc. now apply Hstep.
Qed.

(** *** Identifiers stay distinct *)

Lemma map_id_updated (g : order -> order) k l :
  (forall o, id (g o) = id o) ->
  map id (map (fun o => if id o =? k then g o else o) l) = map id l.
Proof.
  intros Hg. rewrite map_map. apply map_ext. intros o.
  destruct (id o =? k); [apply Hg|reflexivity].
Qed.

Lemma NoDup_map_filter (f : order -> bool) l :
  NoDup (map id l) -> NoDup (map id (filter f l)).
Proof.
  induction l as [|x l IH]; [trivial|]. cbn [map filter]. intros H.
  apply NoDup_cons_iff in H as [Hx Hl]. destruct (f x); [|auto].
  cbn [map]. constructor; [|auto]. intros Hin. apply Hx.
  apply in_map_iff in Hin as (y & Hy & Hin). apply filter_In in Hin as [Hin _].
  apply in_map_iff. eauto.
Qed.



(** *** [ORDER BY id DESC] *)






End Histories.

(** * Properties of the notification service *)

Section Notify.
Import NotificationService.
Context {P : Platform}.


Lemma notification_rowid_ge l n : In n l -> id n <= max_rowid l.
Proof.
  induction l as [|x l IH]; simpl; [easy|].
  intros [->|H]; [|specialize (IH H)]; lia.
Qed.

Lemma notification_rowid_nonneg l : 0 <= max_rowid l.
Proof. induction l; simpl; lia. Qed.

Lemma select_new_notification d n :
  id n = Z.max (seq d) (max_rowid (rows d)) + 1 -> id n <= INT64_MAX ->
  select_notification {| rows := (rows d ++ [n])%list; seq := id n |} (id n)
  = Ok (Some n).
Proof.
  intros Hid Hmax. unfold select_notification.
  pose proof (notification_rowid_nonneg (rows d)).
  rewrite bind_int_ok by (apply sqlite_int_spec; unfold INT64_MIN; lia).
  cbn [bind rows]. f_equal. apply find_snoc_fresh; [|apply Z.eqb_refl].
  intros y Hy. apply notification_rowid_ge in Hy. apply Z.eqb_neq. lia.
Qed.

(** Which values the sqlite3 module binds: everything but a list, a dict,
    an int outside 64 bits and a str it cannot pass on as text. *)
Lemma bind_param_ok v :
  (exists x, bind_param v = Ok x) <->
  match v with
  | JList _ | JDict _ => False
  | JInt n => sqlite_int n = true
  | JStr s => sqlite_text s = true
  | _ => True
  end.
Proof.
  destruct v as [| b | n | f | s | l | kv]; cbn [bind_param].
  - split; eauto.
  - split; eauto.
  - unfold bind_int. destruct (sqlite_int n); cbn [bind].
    + split; eauto.
    + split; [now intros [x [=]]|discriminate].
  - split; [trivial|]. intros _. destruct f; eauto.
  - unfold bind_text, sqlite_text. destruct (text_error s); cbn [bind].
    + split; [now intros [x [=]]|discriminate].
    + split; eauto.
  - split; [now intros [x [=]]|easy].
  - split; [now intros [x [=]]|easy].
Qed.


(** What follows the commit: 201 with the row when [print] returns, 500
    when it raises; the table holds the row either way. *)
Lemma report_stored_new w d n :
  id n = Z.max (seq d) (max_rowid (rows d)) + 1 -> id n <= INT64_MAX ->
  let d' := {| rows := (rows d ++ [n])%list; seq := id n |} in
  report_stored w d' (id n)
  = match stdout w (log_line n) with
    | None => ((Json (JDict (dict_of_row n)), 201), d')
    | Some e => ((ServerError e, 500), d')
    end.
Proof.
  intros Hid Hmax d'. unfold report_stored, d'.
  rewrite select_new_notification by assumption. cbn [bind]. unfold print.
  now destruct (stdout w (log_line n)).
Qed.


Lemma insert_notification_inv d u o m ts k d' :
  insert_notification d u o m ts = Ok (k, d') ->
  exists u' o',
    bind_param u = Ok u' /\ bind_param o = Ok o' /\ sqlite_text m = true
    /\ Z.max (seq d) (max_rowid (rows d)) < INT64_MAX
    /\ k = Z.max (seq d) (max_rowid (rows d)) + 1
    /\ d' = {| rows := (rows d ++ [ {| id := k; user_id := integer_affinity u';
                                       order_id := integer_affinity o';
                                       message := m; created_at := ts |} ])%list;
               seq := k |}.
Proof.
  unfold insert_notification.
  destruct (bind_param u) as [u'|]; [|discriminate]. cbn [bind].
  destruct (bind_param o) as [o'|]; [|discriminate]. cbn [bind].
  destruct (bind_text m) as [m'|] eqn:Hm; [|discriminate]. cbn [bind].
  apply bind_text_inv in Hm as [-> Hm].
  destruct (Z.ltb_spec (Z.max (seq d) (max_rowid (rows d))) INT64_MAX) as [Hlt|_];
    [|discriminate].
  intros [= <- <-]. exists u', o'. auto 10.
Qed.


End Notify.

(** * Further properties of the order service *)

Lemma filter_all_kept {A : Type} (f : A -> bool) (l : list A) :
  existsb (fun x => negb (f x)) l = false -> filter f l = l.
Proof.
  induction l as [|x l IH]; [reflexivity|]. cbn [existsb filter].
  intros H. apply orb_false_iff in H as [Hx Hl]. apply negb_false_iff in Hx.
  rewrite Hx. now rewrite (IH Hl).
Qed.

Lemma filter_length_le {A : Type} (f : A -> bool) (l : list A) :
  (List.length (filter f l) <= List.length l)%nat.
Proof.
  induction l as [|x l IH]; [reflexivity|]. cbn [filter].
  destruct (f x); cbn [List.length]; lia.
Qed.

Lemma filter_some_dropped {A : Type} (f : A -> bool) (l : list A) :
  existsb (fun x => negb (f x)) l = true ->
  (List.length (filter f l) < List.length l)%nat.
Proof.
  induction l as [|x l IH]; [discriminate|]. cbn [existsb filter].
  intros H. destruct (f x); cbn [negb orb List.length] in *.
  - specialize (IH H). lia.
  - pose proof (filter_length_le f l). lia.
Qed.

Lemma substring_prefix_length (n : nat) (s : string) :
  String.length (substring 0 n s) = Nat.min n (String.length s)
  /\ prefix (substring 0 n s) s = true.
Proof.
  revert s. induction n as [|n IH]; intros s.
  - destruct s; split; reflexivity.
  - destruct s as [|c s]; [split; reflexivity|].
    destruct (IH s) as [Hl Hp]. cbn [substring String.length Nat.min prefix].
    split; [now rewrite Hl|].
    destruct (Ascii.ascii_dec c c) as [_|Hc]; [exact Hp|now elim Hc].
Qed.

Lemma substring_whole (n : nat) (s : string) :
  (String.length s <= n)%nat -> substring 0 n s = s.
Proof.
  revert s. induction n as [|n IH]; intros s H.
  - destruct s; [reflexivity|cbn in H; lia].
  - destruct s as [|c s]; [reflexivity|]. cbn [substring]. f_equal. apply IH.
    cbn in H. lia.
Qed.



Section UserCheck.
Import OrderService.
Context {P : Platform}.

(** A 200 from the user service whose body is the JSON [null] counts as
    an absent user, and one whose body is not JSON is answered with 500;
    neither writes a row. *)
Theorem user_check_200_edges req w d uid it amt text js :
  validate_order req = Next (uid, it, amt) ->
  user_service w uid = Response 200 text js ->
  (js = Some JNull ->
   create_order req w d = (bad_request "User does not exist.", d))
  /\ (js = None ->
      create_order req w d = ((ServerError JSONDecodeError, 500), d)).
Proof.
  intros Hv Hr. rewrite (create_order_validated _ _ _ _ _ _ Hv).
  unfold place_order, fetch_user. rewrite Hr. cbn.
  split; intros ->; reflexivity.
Qed.
End UserCheck.

Section Excerpts.
Import OrderService.

(** Error reports carry a bounded excerpt of the upstream text: the 502
    body holds its first 1000 characters, and the detail of an undelivered
    notification its first 500. *)
Theorem excerpts_bounded :
  (forall service status_code text,
      exists excerpt,
        handle_error (UpstreamBadResponse service status_code text)
        = ((Json (JDict [("error", JStr "Bad Gateway");
                         ("message",
                          JStr (service ++ " returned an unexpected response."));
                         ("status_code", JInt status_code);
                         ("body", JStr excerpt)]), 502))
        /\ String.length excerpt = Nat.min 1000 (String.length text)
        /\ prefix excerpt text = true)
  /\ (forall w uid oid msg status_code text js,
        notification_service w (notification_payload uid oid msg)
        = Response status_code text js ->
        status_code <> 200 -> status_code <> 201 ->
        exists excerpt,
          send_notification w uid oid msg
          = (false, Some ("Unexpected status " ++ str_int status_code ++ ": "
                          ++ excerpt))
          /\ String.length excerpt = Nat.min 500 (String.length text)
          /\ prefix excerpt text = true).
Proof.
  split.
  - intros service code text. exists (substring 0 1000 text).
    split; [reflexivity|]. apply substring_prefix_length.
  - intros w uid oid msg code text js Hr H200 H201.
    exists (substring 0 500 text). unfold send_notification. rewrite Hr.
    apply Z.eqb_neq in H200, H201. rewrite H200, H201.
    split; [reflexivity|]. apply substring_prefix_length.
Qed.
End Excerpts.

Section UpdateRules.
Import OrderService OrderFacts.
Context {P : Platform}.

Lemma update_fields_status_blank st it am :
  is_none st = false -> strip (py_str st) = "" ->
  update_fields st it am = Return (bad_request "Field 'status' cannot be empty.").
Proof. intros Hn Hs. unfold update_fields. now rewrite Hn, Hs. Qed.

Lemma update_fields_item_blank st it am :
  text_field_ok st -> is_none it = false -> strip (py_str it) = "" ->
  update_fields st it am = Return (bad_request "Field 'item' cannot be empty.").
Proof.
  intros Hst Hn Hs. unfold update_fields. rewrite Hn, Hs.
  destruct Hst as [-> | Hst]; [reflexivity|].
  destruct (is_none st); [reflexivity|]. cbn [negb].
  now rewrite (eqb_empty_false _ Hst).
Qed.

Lemma update_fields_amount st it am :
  text_field_ok st -> text_field_ok it -> is_none am = false ->
  (not_an_int am ->
   update_fields st it am
   = Return (bad_request "Field 'amount' must be an integer."))
  /\ (forall n, py_int am = Ok n -> n <= 0 ->
      update_fields st it am = Return (bad_request "Field 'amount' must be > 0.")).
Proof.
  intros Hst Hit Hn. unfold update_fields. rewrite Hn. cbn [negb].
  assert (Est : forall (k : list assignment -> early response (list assignment)) r,
             (forall f, k f = Return r) ->
             (fields <~ (if negb (is_none st)
                         then if (strip (py_str st) =? "")%string
                              then Return (bad_request "Field 'status' cannot be empty.")
                              else Next ([] ++ [SetStatus (strip (py_str st))])%list
                         else Next []) ;; k fields) = Return r).
  { intros k r Hk. destruct Hst as [-> | Hst]; [apply Hk|].
    destruct (is_none st); [apply Hk|]. cbn [negb].
    rewrite (eqb_empty_false _ Hst). apply Hk. }
  assert (Eit : forall f (k : list assignment -> early response (list assignment)) r,
             (forall f, k f = Return r) ->
             (fields <~ (if negb (is_none it)
                         then if (strip (py_str it) =? "")%string
                              then Return (bad_request "Field 'item' cannot be empty.")
                              else Next (f ++ [SetItem (strip (py_str it))])%list
                         else Next f) ;; k fields) = Return r).
  { intros f k r Hk. destruct Hit as [-> | Hit]; [apply Hk|].
    destruct (is_none it); [apply Hk|]. cbn [negb].
    rewrite (eqb_empty_false _ Hit). apply Hk. }
  split.
  - intros Hbad. apply Est. intros f. apply Eit. intros f'.
    now destruct Hbad as [-> | ->].
  - intros n Hi Hle. apply Est. intros f. apply Eit. intros f'.
    rewrite Hi. apply Z.leb_le in Hle. now rewrite Hle.
Qed.

(** The checks of [update_order] in their order.  A field that fails
    aborts the update with its own 400 and the table as it was, also when
    fields before it passed. *)
Theorem update_order_field_rules order_id req d kv o :
  py_or (get_json req) (JDict []) = JDict kv ->
  sqlite_int order_id = true ->
  find (fun o => id o =? order_id) (rows d) = Some o ->
  let st := dict_get kv "status" in
  let it := dict_get kv "item" in
  let am := dict_get kv "amount" in
  (is_none st = false -> strip (py_str st) = "" ->
   update_order order_id req d
   = (bad_request "Field 'status' cannot be empty.", d))
  /\ (text_field_ok st -> is_none it = false -> strip (py_str it) = "" ->
      update_order order_id req d
      = (bad_request "Field 'item' cannot be empty.", d))
  /\ (text_field_ok st -> text_field_ok it -> is_none am = false ->
      (not_an_int am ->
       update_order order_id req d
       = (bad_request "Field 'amount' must be an integer.", d))
      /\ (forall n, py_int am = Ok n -> n <= 0 ->
          update_order order_id req d
          = (bad_request "Field 'amount' must be > 0.", d))).
Proof.
  intros Hb Hk Ho st it am.
  assert (E : forall resp, update_fields st it am = Return resp ->
                           update_order order_id req d = (resp, d)).
  { intros resp Hf.
    exact (proj1 (update_order_rejects order_id req d kv o resp Hb Hk Ho Hf)). }
  split; [|split].
  - intros Hn Hs. apply E. now apply update_fields_status_blank.
  - intros Hst Hn Hs. apply E. now apply update_fields_item_blank.
  - intros Hst Hit Hn.
    destruct (update_fields_amount st it am Hst Hit Hn) as [H1 H2]. split.
    + intros Hbad. apply E. now apply H1.
    + intros n Hi Hle. apply E. now apply (H2 n).
Qed.

(** The table changes only when the answer is 200. *)
Theorem update_order_writes_only_on_200 order_id req d :
  snd (fst (update_order order_id req d)) <> 200 ->
  snd (update_order order_id req d) = d.
Proof.
  unfold update_order.
  destruct (py_get _ "status") as [st|]; cbn [bind serve fst snd]; [|reflexivity].
  destruct (py_get _ "item") as [it|]; cbn [bind serve fst snd]; [|reflexivity].
  destruct (py_get _ "amount") as [am|]; cbn [bind serve fst snd]; [|reflexivity].
  destruct (select_order d order_id) as [[o|]|]; cbn [bind serve fst snd];
    try reflexivity.
  destruct (update_fields st it am) as [[resp|fields]|];
    cbn [bind serve fst snd]; try reflexivity.
  destruct (update_rows d fields order_id) as [d'|];
    cbn [bind serve fst snd]; try reflexivity.
  destruct (select_order d' order_id) as [[r|]|]; cbn [bind serve fst snd];
    try reflexivity.
  intros H. now elim H.
Qed.
End UpdateRules.

Section UpdateSettles.
Import OrderService OrderFacts.
Context {P : Platform}.

Lemma select_order_inv d k r :
  select_order d k = Ok r ->
  sqlite_int k = true /\ r = find (fun o => id o =? k) (rows d).
Proof.
  unfold select_order. destruct (bind_int k) as [k'|] eqn:Hk; [|discriminate].
  apply bind_int_inv in Hk as [-> Hk]. cbn [bind]. now intros [= <-].
Qed.

Lemma update_order_200 order_id req d b d' :
  update_order order_id req d = ((b, 200), d') ->
  exists kv o fields,
    py_or (get_json req) (JDict []) = JDict kv
    /\ sqlite_int order_id = true
    /\ find (fun o => id o =? order_id) (rows d) = Some o
    /\ update_fields (dict_get kv "status") (dict_get kv "item")
                     (dict_get kv "amount") = Next fields
    /\ Forall bindable fields.
Proof.
  unfold update_order.
  destruct (py_or (get_json req) (JDict [])) as [| | | | | |kv];
    try (cbn; discriminate).
  cbn [py_get bind].
  destruct (select_order d order_id) as [[o|]|] eqn:Hsel;
    try (cbn; discriminate); [|cbn; destruct e; discriminate].
  apply select_order_inv in Hsel as [Hk Ho]. cbn [bind].
  destruct (update_fields _ _ _) as [[resp|fields]|] eqn:Hf; cbn [bind serve].
  - apply update_fields_return in Hf as [msg ->]. discriminate.
  - destruct (update_rows d fields order_id) as [d1|] eqn:Hu;
      [|cbn; destruct e; discriminate].
    apply update_rows_inv in Hu as (Hbind & _ & _).
    intros _. exists kv, o, fields. repeat split; auto.
  - destruct e; discriminate.
Qed.

Lemma updated_order_again o st it am n :
  updated_order (updated_order o st it am n) st it am n = updated_order o st it am n.
Proof.
  unfold updated_order. cbn.
  now destruct (is_none st), (is_none it), (is_none am).
Qed.

Lemma updated_order_id o st it am n : id (updated_order o st it am n) = id o.
Proof. reflexivity. Qed.

(** A successful update shows in the next read and can be repeated: the
    body of the 200 is the old row with exactly the supplied fields
    replaced, [get_order] then answers with the same body, rows of other
    identifiers are untouched, and sending the same update again gives the
    same answer and the same table. *)
Theorem update_order_settles order_id req d b d' :
  update_order order_id req d = ((b, 200), d') ->
  exists kv o n,
    py_or (get_json req) (JDict []) = JDict kv
    /\ find (fun o => id o =? order_id) (rows d) = Some o
    /\ let st := dict_get kv "status" in
       let it := dict_get kv "item" in
       let am := dict_get kv "amount" in
       (is_none am = false -> py_int am = Ok n /\ 0 < n)
       /\ b = Json (JDict (dict_of_row (updated_order o st it am n)))
       /\ rows d' = map (fun x => if id x =? order_id
                                  then updated_order x st it am n else x) (rows d)
       /\ seq d' = seq d
       /\ get_order order_id d' = ((b, 200), d')
       /\ update_order order_id req d' = ((b, 200), d').
Proof.
  intros H.
  destruct (update_order_200 _ _ _ _ _ H) as (kv & o & fields & Hb & Hk & Ho & Hf & Hbind).
  destruct (update_order_applies order_id req d kv o fields Hb Hk Ho Hf Hbind)
    as (n & Hn & Hupd).
  rewrite Hupd in H. injection H as <- <-.
  exists kv, o, n. split; [exact Hb|]. split; [exact Ho|]. cbn zeta.
  set (st := dict_get kv "status") in *. set (it := dict_get kv "item") in *.
  set (am := dict_get kv "amount") in *.
  set (d' := {| rows := map (fun x => if id x =? order_id
                                      then updated_order x st it am n else x) (rows d);
                seq := seq d |}).
  assert (Ho' : find (fun o => id o =? order_id) (rows d')
                = Some (updated_order o st it am n)).
  { cbn [rows d']. rewrite find_updated by reflexivity. now rewrite Ho. }
  split; [exact Hn|]. split; [reflexivity|]. split; [reflexivity|].
  split; [reflexivity|]. split.
  - unfold get_order, select_order. rewrite (bind_int_ok _ Hk). cbn [bind].
    now rewrite Ho'.
  - destruct (update_order_applies order_id req d' kv _ fields Hb Hk Ho' Hf Hbind)
      as (n' & Hn' & Hupd').
    fold st it am in Hn', Hupd'. rewrite Hupd'.
    assert (En : is_none am = false -> n' = n).
    { intros Ham. destruct (Hn Ham) as [E1 _]. destruct (Hn' Ham) as [E2 _].
      rewrite E1 in E2. now injection E2. }
    assert (Eu : forall x, updated_order x st it am n' = updated_order x st it am n).
    { intros x. unfold updated_order.
      destruct (Bool.bool_dec (is_none am) false) as [Ham|Ham].
      - now rewrite (En Ham).
      - apply not_false_is_true in Ham. now rewrite Ham. }
    assert (Ed : {| rows := map (fun x => if id x =? order_id
                                          then updated_order x st it am n' else x)
                                (rows d');
                    seq := seq d' |} = d').
    { unfold d'. cbn [rows seq]. f_equal. rewrite map_map. apply map_ext.
      intros x. destruct (id x =? order_id) eqn:E.
      - rewrite updated_order_id, E, Eu. apply updated_order_again.
      - now rewrite E. }
    rewrite Ed, Eu, updated_order_again. reflexivity.
Qed.
End UpdateSettles.

Section DeleteOrder.
Import OrderService OrderFacts.
Context {P : Platform}.

Lemma negb_negb_id_eqb (l : list order) k :
  existsb (fun o => negb (negb (id o =? k))) l = existsb (fun o => id o =? k) l.
Proof.
  induction l as [|x l IH]; [reflexivity|]. cbn [existsb].
  now rewrite negb_involutive, IH.
Qed.

(** [delete_order] removes the rows of the identifier and nothing else,
    answers 204 when there was one, after which [get_order] answers 404,
    and answers 404 with the table as it was when there was none. *)
Theorem delete_order_spec order_id d :
  sqlite_int order_id = true ->
  let kept := filter (fun o => negb (id o =? order_id)) (rows d) in
  let d' := {| rows := kept; seq := seq d |} in
  (forall o, In o kept <-> In o (rows d) /\ id o <> order_id)
  /\ (existsb (fun o => id o =? order_id) (rows d) = true ->
      delete_order order_id d = ((Text "", 204), d')
      /\ get_order order_id d' = (not_found, d'))
  /\ (existsb (fun o => id o =? order_id) (rows d) = false ->
      delete_order order_id d = (not_found, d)).
Proof.
  intros Hk kept d'. split; [|split].
  - intros o. unfold kept. rewrite filter_In, negb_true_iff, Z.eqb_neq. tauto.
  - intros Hex. split.
    + unfold delete_order, delete_rows. rewrite (bind_int_ok _ Hk). cbn [bind].
      fold kept. fold d'.
      assert (Hlt : (List.length kept < List.length (rows d))%nat).
      { apply filter_some_dropped. now rewrite negb_negb_id_eqb. }
      destruct (Z.eqb_spec (Z.of_nat (List.length (rows d))
                            - Z.of_nat (List.length kept)) 0); [lia|reflexivity].
    + unfold get_order, select_order. rewrite (bind_int_ok _ Hk). cbn [bind rows d'].
      destruct (find _ kept) as [o|] eqn:Hf; [|reflexivity].
      apply find_some in Hf as [Hin Hid]. apply filter_In in Hin as [_ Hne].
      now rewrite Hid in Hne.
  - intros Hex. unfold delete_order, delete_rows. rewrite (bind_int_ok _ Hk).
    cbn [bind]. rewrite filter_all_kept by now rewrite negb_negb_id_eqb.
    rewrite Z.sub_diag. cbn. now destruct d.
Qed.
End DeleteOrder.

Section OrderIds.
Import OrderService OrderFacts History.
Context {P : Platform}.

(** What each view can do to the table. *)
Lemma create_order_table req w d :
  snd (create_order req w d) = d
  \/ (Z.max (seq d) (max_rowid (rows d)) < INT64_MAX
      /\ exists uid it amt,
          snd (create_order req w d)
          = {| rows := (rows d ++ [new_order w d uid it amt])%list;
               seq := Z.max (seq d) (max_rowid (rows d)) + 1 |}).
Proof.
  unfold create_order.
  destruct (validate_order req) as [[resp|[[uid it] amt]]|e];
    cbn [bind serve snd]; auto.
  unfold place_order.
  destruct (fetch_user w uid) as [u|]; cbn [bind serve snd]; auto.
  destruct (is_none u); cbn [bind serve snd]; auto.
  destruct (insert_order _ _ _ _ _ _) as [[new d1]|] eqn:Hins;
    cbn [bind serve snd]; auto.
  apply insert_order_inv in Hins as (_ & _ & _ & -> & Hmax & ->).
  destruct (select_order _ _) as [[r|]|]; cbn [bind serve snd]; auto.
  destruct (send_notification _ _ _ _) as [ok err]. cbn [snd].
  right. split; [lia|]. exists uid, it, amt. reflexivity.
Qed.

Lemma update_order_table order_id req d :
  snd (update_order order_id req d) = d
  \/ exists fields,
      snd (update_order order_id req d)
      = {| rows := map (fun o => if id o =? order_id
                                 then fold_left assign fields o else o) (rows d);
           seq := seq d |}.
Proof.
  unfold update_order.
  destruct (py_get _ "status") as [st|]; cbn [bind serve snd]; auto.
  destruct (py_get _ "item") as [it|]; cbn [bind serve snd]; auto.
  destruct (py_get _ "amount") as [am|]; cbn [bind serve snd]; auto.
  destruct (select_order d order_id) as [[o|]|]; cbn [bind serve snd]; auto.
  destruct (update_fields st it am) as [[resp|fields]|];
    cbn [bind serve snd]; auto.
  destruct (update_rows d fields order_id) as [d'|] eqn:Hu;
    cbn [bind serve snd]; auto.
  apply update_rows_inv in Hu as (_ & _ & ->).
  destruct (select_order _ _) as [[r|]|]; cbn [bind serve snd]; eauto.
Qed.

Lemma delete_order_table order_id d :
  snd (delete_order order_id d) = d
  \/ snd (delete_order order_id d)
     = {| rows := filter (fun o => negb (id o =? order_id)) (rows d);
          seq := seq d |}.
Proof.
  unfold delete_order, delete_rows.
  destruct (bind_int order_id) as [k|] eqn:Hk; cbn [bind serve snd]; auto.
  apply bind_int_inv in Hk as [-> _].
  destruct (_ =? 0); cbn [snd]; auto.
Qed.

Lemma get_order_table order_id d : snd (get_order order_id d) = d.
Proof.
  unfold get_order. destruct (select_order d order_id) as [[r|]|]; reflexivity.
Qed.

Lemma ids_ok_insert d o :
  ids_ok d -> Z.max (seq d) (max_rowid (rows d)) < INT64_MAX ->
  id o = Z.max (seq d) (max_rowid (rows d)) + 1 ->
  ids_ok {| rows := (rows d ++ [o])%list; seq := id o |}.
Proof.
  intros [Hd Hr Hs] Htop Hid. split; cbn [rows seq].
  - rewrite map_app. cbn [map]. apply NoDup_app; [exact Hd|repeat constructor; easy|].
    intros a Ha [<-|[]]. apply in_map_iff in Ha as (x & Hx & Hin).
    pose proof (fresh_rowid _ _ Hin). lia.
  - intros x Hx. apply in_app_or in Hx as [Hx|[<-|[]]].
    + specialize (Hr x Hx). lia.
    + lia.
  - lia.
Qed.

Lemma ids_ok_update d (g : order -> order) k :
  (forall o, id (g o) = id o) -> ids_ok d ->
  ids_ok {| rows := map (fun o => if id o =? k then g o else o) (rows d);
            seq := seq d |}.
Proof.
  intros Hg [Hd Hr Hs]. split; cbn [rows seq].
  - now rewrite map_id_updated.
  - intros x Hx. apply in_map_iff in Hx as (o & <- & Ho).
    destruct (id o =? k); [rewrite Hg|]; auto.
  - exact Hs.
Qed.

Lemma ids_ok_delete d (f : order -> bool) :
  ids_ok d -> ids_ok {| rows := filter f (rows d); seq := seq d |}.
Proof.
  intros [Hd Hr Hs]. split; cbn [rows seq].
  - now apply NoDup_map_filter.
  - intros x Hx. apply filter_In in Hx as [Hx _]. auto.
  - exact Hs.
Qed.

Lemma step_ids_ok o d : ids_ok d -> ids_ok (snd (step o d)).
Proof.
  intros Hd. destruct o; cbn [step].
  - destruct (create_order_table req w d) as [-> | (Htop & uid & it & amt & ->)];
      [exact Hd|].
    now apply (ids_ok_insert d (new_order w d uid it amt)).
  - exact Hd.
  - now rewrite get_order_table.
  - destruct (update_order_table order_id req d) as [-> | (fields & ->)];
      [exact Hd|].
    apply ids_ok_update; [apply assign_id|exact Hd].
  - destruct (delete_order_table order_id d) as [-> | ->]; [exact Hd|].
    now apply ids_ok_delete.
Qed.

Lemma empty_ids_ok : ids_ok empty_db.
Proof.
  split; cbn; [constructor|easy|unfold INT64_MAX; lia].
Qed.

Lemma run_from_ids_ok ops d : ids_ok d -> ids_ok (run ops d).
Proof.
  revert d. induction ops as [|o ops IH]; intros d Hd; [exact Hd|].
  cbn [run fold_left]. apply IH. now apply step_ids_ok.
Qed.

Lemma find_unique l (o : order) :
  NoDup (map id l) -> In o l -> find (fun x => id x =? id o) l = Some o.
Proof.
  induction l as [|x l IH]; [easy|]. cbn [map find]. intros Hnd Hin.
  apply NoDup_cons_iff in Hnd as [Hx Hl].
  destruct Hin as [->|Hin]; [now rewrite Z.eqb_refl|].
  destruct (Z.eqb_spec (id x) (id o)) as [E|_]; [|now apply IH].
  elim Hx. rewrite E. now apply in_map.
Qed.

(** After any sequence of requests, every stored order is the one
    [get_order] answers for its identifier, and an identifier no stored
    order has is answered with 404. *)
Theorem stored_order_is_found ops :
  let d := run ops empty_db in
  (forall o, In o (rows d) ->
             get_order (id o) d = ((Json (JDict (dict_of_row o)), 200), d))
  /\ (forall k, sqlite_int k = true -> ~ In k (map id (rows d)) ->
                get_order k d = (not_found, d)).
Proof.
  intros d. destruct (run_from_ids_ok ops empty_db empty_ids_ok) as [Hd Hr Hs].
  fold d in Hd, Hr, Hs. split.
  - intros o Ho. unfold get_order, select_order.
    rewrite bind_int_ok.
    + cbn [bind]. now rewrite (find_unique _ _ Hd Ho).
    + apply sqlite_int_spec. specialize (Hr o Ho). unfold INT64_MIN. lia.
  - intros k Hk Hnin. unfold get_order, select_order. rewrite (bind_int_ok _ Hk).
    cbn [bind]. destruct (find _ (rows d)) as [o|] eqn:Hf; [|reflexivity].
    apply find_some in Hf as [Hin Hid]. apply Z.eqb_eq in Hid. elim Hnin.
    rewrite <- Hid. now apply in_map.
Qed.

Lemma step_seq_grows o d : seq d <= seq (snd (step o d)).
Proof.
  destruct o; cbn [step].
  - destruct (create_order_table req w d) as [-> | (_ & uid & it & amt & ->)];
      cbn [seq]; lia.
  - reflexivity.
  - now rewrite get_order_table.
  - destruct (update_order_table order_id req d) as [-> | (fields & ->)];
      reflexivity.
  - destruct (delete_order_table order_id d) as [-> | ->]; reflexivity.
Qed.

Lemma run_seq_grows ops d : seq d <= seq (run ops d).
Proof.
  revert d. induction ops as [|o ops IH]; intros d; [reflexivity|].
  cbn [run fold_left]. etransitivity; [apply step_seq_grows|apply IH].
Qed.

(** An identifier is never handed out twice: the identifier of a newly
    created order is above that of every order that was ever stored
    before, also of those deleted since. *)
Theorem identifiers_not_reused ops1 ops2 req w b d' :
  let d1 := run ops1 empty_db in
  let d2 := run ops2 d1 in
  create_order req w d2 = ((b, 201), d') ->
  exists j new,
    b = Json (JDict j) /\ dict_get j "id" = JInt new
    /\ forall o, In o (rows d1) -> id o < new.
Proof.
  intros d1 d2 H. apply create_order_201 in H as (uid & it & amt & _ & H).
  apply place_order_201 in H as [-> _].
  eexists. exists (Z.max (seq d2) (max_rowid (rows d2)) + 1).
  split; [reflexivity|]. split; [reflexivity|].
  intros o Ho.
  destruct (run_from_ids_ok ops1 empty_db empty_ids_ok) as [_ Hr _].
  specialize (Hr o Ho). pose proof (run_seq_grows ops2 d1). fold d1 in Hr.
  fold d2 in H. lia.
Qed.
End OrderIds.

(** * Further properties of the notification service *)

Section NotificationLog.
Import NotificationService NotificationLog.
Context {P : Platform}.

(** What [notify] can do to the table, with the answer it gives. *)
Lemma notify_table req w d :
  (snd (fst (notify req w d)) <> 201 /\ snd (notify req w d) = d)
  \/ exists n,
      snd (notify req w d) = {| rows := (rows d ++ [n])%list; seq := id n |}
      /\ id n = Z.max (seq d) (max_rowid (rows d)) + 1
      /\ message n <> "" /\ created_at n = utc_now_iso w
      /\ fst (notify req w d)
         = match stdout w (log_line n) with
           | None => (Json (JDict (dict_of_row n)), 201)
           | Some e => (ServerError e, 500)
           end.
Proof.
  unfold notify.
  destruct (py_get _ "message") as [m0|]; cbn [bind serve fst snd];
    [|left; split; [discriminate|reflexivity]].
  destruct (py_strip _) as [m|]; cbn [bind serve fst snd];
    [|left; split; [discriminate|reflexivity]].
  destruct (String.eqb_spec m "") as [->|Hm];
    [left; split; [discriminate|reflexivity]|].
  destruct (py_get _ "user_id") as [u|]; cbn [bind serve fst snd];
    [|left; split; [discriminate|reflexivity]].
  destruct (py_get _ "order_id") as [o|]; cbn [bind serve fst snd];
    [|left; split; [discriminate|reflexivity]].
  destruct (insert_notification d u o m (utc_now_iso w)) as [[k d1]|] eqn:Hins;
    cbn [bind serve fst snd]; [|left; split; [discriminate|reflexivity]].
  apply insert_notification_inv in Hins as (u' & o' & _ & _ & _ & Hlt & -> & ->).
  set (n := {| id := Z.max (seq d) (max_rowid (rows d)) + 1;
               user_id := integer_affinity u'; order_id := integer_affinity o';
               message := m; created_at := utc_now_iso w |}).
  change (Z.max (seq d) (max_rowid (rows d)) + 1) with (id n).
  rewrite report_stored_new; [|reflexivity|cbn; lia].
  right. exists n.
  destruct (stdout w (log_line n)); cbn [fst snd]; repeat split; exact Hm.
Qed.

(** [notify] has three outcomes.  It stores nothing and answers with a
    status other than 201; or it appends one row, with a rowid above all
    others, a message that is not empty and the clock's timestamp, and
    answers 201 with that row; or it appends such a row and answers 500,
    which happens exactly when the [print] after the commit raises. *)
Theorem notify_appends req w d :
  (snd (fst (notify req w d)) <> 201 /\ snd (notify req w d) = d)
  \/ exists n,
      snd (notify req w d) = {| rows := (rows d ++ [n])%list; seq := id n |}
      /\ (forall x, In x (rows d) -> id x < id n)
      /\ message n <> "" /\ created_at n = utc_now_iso w
      /\ (stdout w (log_line n) = None ->
          fst (notify req w d) = (Json (JDict (dict_of_row n)), 201))
      /\ (forall e, stdout w (log_line n) = Some e ->
          fst (notify req w d) = (ServerError e, 500)).
Proof.
  destruct (notify_table req w d) as [H | (n & Hn & Hid & Hm & Hc & Hr)];
    [now left|].
  right. exists n. split; [exact Hn|]. split.
  - intros x Hx. apply notification_rowid_ge in Hx. lia.
  - split; [exact Hm|]. split; [exact Hc|]. rewrite Hr.
    split; [now intros ->|now intros e ->].
Qed.

Lemma serve_all_snoc reqs r d :
  serve_all (reqs ++ [r]) d = snd (notify (fst r) (snd r) (serve_all reqs d)).
Proof. unfold serve_all. now rewrite fold_left_app. Qed.

(** The log only grows: whatever requests are served, the rows stored
    before stay as they were, in place, at most one row is added per
    request, and every added row has a message that is not empty. *)
Theorem notification_log_grows reqs d :
  exists added,
    rows (serve_all reqs d) = (rows d ++ added)%list
    /\ (List.length added <= List.length reqs)%nat
    /\ Forall (fun n => message n <> "") added.
Proof.
  induction reqs as [|r reqs IH] using rev_ind.
  - exists []. cbn. rewrite app_nil_r. auto.
  - destruct IH as (added & Hrows & Hlen & Hmsg). rewrite serve_all_snoc.
    destruct (notify_table (fst r) (snd r) (serve_all reqs d))
      as [[_ ->] | (n & -> & _ & Hm & _)].
    + exists added. rewrite length_app. cbn. split; [exact Hrows|]. split; [lia|auto].
    + exists (added ++ [n])%list. cbn [snd rows]. rewrite Hrows, <- app_assoc.
      split; [reflexivity|]. rewrite !length_app. cbn. split; [lia|].
      apply Forall_app. auto.
Qed.

Lemma serve_all_ids_distinct reqs : NoDup (map id (rows (serve_all reqs empty_db))).
Proof.
  induction reqs as [|r reqs IH] using rev_ind; [constructor|].
  rewrite serve_all_snoc.
  destruct (notify_table (fst r) (snd r) (serve_all reqs empty_db))
    as [[_ ->] | (n & -> & Hid & _)]; [exact IH|].
  cbn [rows]. rewrite map_app. cbn [map].
  apply NoDup_app; [exact IH|repeat constructor; easy|].
  intros a Ha [<-|[]]. apply in_map_iff in Ha as (x & Hx & Hin).
  apply notification_rowid_ge in Hin. lia.
Qed.

Lemma notification_insert_desc_perm n l : Permutation (insert_desc n l) (n :: l).
Proof.
  induction l as [|x l IH]; [reflexivity|]. cbn [insert_desc].
  destruct (id x <=? id n); [reflexivity|]. rewrite IH. apply perm_swap.
Qed.

Lemma notification_order_perm l : Permutation (order_by_id_desc l) l.
Proof.
  induction l as [|x l IH]; [reflexivity|]. unfold order_by_id_desc.
  cbn [fold_right]. rewrite notification_insert_desc_perm. now constructor.
Qed.

Lemma notification_insert_desc_sorted n l :
  StronglySorted (fun a b => id a >= id b) l ->
  StronglySorted (fun a b => id a >= id b) (insert_desc n l).
Proof.
  induction 1 as [|x l Hl IH Hx]; cbn [insert_desc].
  - repeat constructor.
  - destruct (Z.leb_spec (id x) (id n)) as [Hle|Hgt].
    + constructor; [now constructor|]. constructor; [lia|].
      rewrite Forall_forall in Hx |- *. intros y Hy. specialize (Hx y Hy). lia.
    + constructor; [exact IH|]. rewrite (notification_insert_desc_perm n l).
      constructor; [lia|exact Hx].
Qed.

Lemma notification_order_sorted l :
  StronglySorted (fun a b => id a >= id b) (order_by_id_desc l).
Proof.
  induction l as [|x l IH]; [constructor|].
  now apply notification_insert_desc_sorted.
Qed.

Lemma notification_strictly_sorted l :
  StronglySorted (fun a b => id a >= id b) l -> NoDup (map id l) ->
  StronglySorted (fun a b => id a > id b) l.
Proof.
  induction 1 as [|x l Hl IH Hx]; cbn [map]; intros Hnd; [constructor|].
  apply NoDup_cons_iff in Hnd as [Hnin Hnd]. constructor; [auto|].
  rewrite Forall_forall in Hx |- *. intros y Hy. specialize (Hx y Hy).
  assert (id y <> id x) by (intros E; apply Hnin; rewrite <- E; now apply in_map).
  lia.
Qed.

(** After any sequence of notifications, [list_notifications] answers
    200 with every stored row, and no other, newest first: in strictly
    descending order of identifier. *)
Theorem list_notifications_descending reqs :
  let d := serve_all reqs empty_db in
  exists l,
    list_notifications d
    = ((Json (JList (map (fun r => JDict (dict_of_row r)) l)), 200), d)
    /\ Permutation l (rows d)
    /\ StronglySorted (fun a b => id a > id b) l.
Proof.
  intros d. exists (order_by_id_desc (rows d)).
  split; [reflexivity|]. split; [apply notification_order_perm|].
  apply notification_strictly_sorted; [apply notification_order_sorted|].
  rewrite (Permutation_map id (notification_order_perm (rows d))).
  apply serve_all_ids_distinct.
Qed.
End NotificationLog.

(** * Properties of the user service *)

Section Users.
Import UserService UserFacts.
Context {P : Platform}.

Lemma user_rowid_ge l u : In u l -> id u <= max_rowid l.
Proof.
  induction l as [|x l IH]; simpl; [easy|].
  intros [->|H]; [|specialize (IH H)]; lia.
Qed.

Lemma user_rowid_nonneg l : 0 <= max_rowid l.
Proof. induction l; simpl; lia. Qed.


Lemma py_strip_or v s :
  py_strip (py_or v (JStr "")) = Ok s ->
  (truthy v = false /\ s = "") \/ exists t, v = JStr t /\ s = strip t.
Proof.
  unfold py_or. destruct (truthy v) eqn:Ht.
  - destruct v; try discriminate. intros [= <-]. right. eauto.
  - cbn. rewrite strip_empty. intros [= <-]. now left.
Qed.

Lemma py_strip_text_or_false v :
  text_or_false v -> exists s, py_strip (py_or v (JStr "")) = Ok s
                               /\ (blank v <-> s = "").
Proof.
  unfold py_or, blank. intros [Hf | (t & ->)].
  - rewrite Hf. cbn. rewrite strip_empty. exists "". split; [reflexivity|].
    split; auto.
  - destruct (truthy (JStr t)) eqn:Ht.
    + exists (strip t). split; [reflexivity|]. split.
      * intros [H | (t' & [= <-] & H)]; [discriminate|exact H].
      * intros H. right. eauto.
    + cbn. rewrite strip_empty. exists "". split; [reflexivity|]. split; auto.
Qed.

(** [create_user] asks for a name and an email: when either is missing
    or blank the answer is 400 and nothing is stored. *)
Theorem create_user_requires_fields req now d kv :
  py_or (get_json req) (JDict []) = JDict kv ->
  text_or_false (dict_get kv "name") -> text_or_false (dict_get kv "email") ->
  blank (dict_get kv "name") \/ blank (dict_get kv "email") ->
  create_user req now d
  = ((Json (JDict [("error", JStr "Bad Request");
                   ("message", JStr "Fields 'name' and 'email' are required.")]),
      400), d).
Proof.
  intros Hb Hn He Hblank. unfold create_user. rewrite Hb. cbn [py_get bind].
  destruct (py_strip_text_or_false _ Hn) as (n & -> & Hnb).
  destruct (py_strip_text_or_false _ He) as (e & -> & Heb). cbn [bind].
  destruct Hblank as [H|H].
  - apply Hnb in H. subst n. reflexivity.
  - apply Heb in H. subst e. rewrite String.eqb_refl, orb_true_r. reflexivity.
Qed.


Lemma insert_user_done d nm em ts k d' :
  insert_user d nm em ts = Done (k, d') ->
  sqlite_text nm = true /\ sqlite_text em = true
  /\ Z.max (seq d) (max_rowid (rows d)) < INT64_MAX
  /\ existsb (fun u => (email u =? em)%string) (rows d) = false
  /\ k = Z.max (seq d) (max_rowid (rows d)) + 1
  /\ d' = {| rows := (rows d ++ [ {| id := k; name := nm; email := em;
                                     created_at := ts |} ])%list;
             seq := k |}.
Proof.
  unfold insert_user.
  destruct (bind_text nm) as [nm'|] eqn:Hn; [|discriminate]. cbn [bind].
  destruct (bind_text em) as [em'|] eqn:He; [|discriminate]. cbn [bind].
  apply bind_text_inv in Hn as [-> Hn]. apply bind_text_inv in He as [-> He].
  destruct (Z.ltb_spec (Z.max (seq d) (max_rowid (rows d))) INT64_MAX) as [Hlt|_];
    [|discriminate].
  destruct (existsb _ (rows d)) eqn:Hex; [discriminate|].
  intros [= <- <-]. auto 10.
Qed.


Lemma select_user_inv d k r :
  select_user d k = Ok r ->
  sqlite_int k = true /\ r = find (fun u => id u =? k) (rows d).
Proof.
  unfold select_user. destruct (bind_int k) as [k'|] eqn:Hk; [|discriminate].
  apply bind_int_inv in Hk as [-> Hk]. cbn [bind]. now intros [= <-].
Qed.

Lemma user_update_fields_next nm em fields :
  update_fields nm em = Next fields ->
  field_ok nm /\ field_ok em /\ (is_none nm = false \/ is_none em = false)
  /\ fields = ((if is_none nm then [] else [SetName (strip (py_str nm))])
               ++ (if is_none em then [] else [SetEmail (strip (py_str em))]))%list.
Proof.
  unfold update_fields, Return, Next, field_ok.
  destruct (is_none nm); cbn [negb bind_early];
    [|destruct (String.eqb_spec (strip (py_str nm)) "") as [?|Hn];
      cbn [bind_early]; [discriminate|]];
    (destruct (is_none em); cbn [negb bind_early];
     [|destruct (String.eqb_spec (strip (py_str em)) "") as [?|He];
       cbn [bind_early]; [discriminate|]]);
    cbn [app]; try discriminate; intros [= <-]; auto 10.
Qed.


Lemma assign_requested_user u nm em :
  fold_left assign
    ((if is_none nm then [] else [SetName (strip (py_str nm))])
     ++ (if is_none em then [] else [SetEmail (strip (py_str em))]))%list u
  = updated_user u nm em.
Proof.
  unfold updated_user. destruct (is_none nm), (is_none em), u; reflexivity.
Qed.

Lemma assigned_email_requested nm em :
  assigned_email
    ((if is_none nm then [] else [SetName (strip (py_str nm))])
     ++ (if is_none em then [] else [SetEmail (strip (py_str em))]))%list
  = if is_none em then None else Some (strip (py_str em)).
Proof. now destruct (is_none nm), (is_none em). Qed.

Lemma find_existsb_id l k u :
  find (fun x => id x =? k) l = Some u -> existsb (fun x => id x =? k) l = true.
Proof.
  intros H. apply find_some in H as [Hin Hid]. apply existsb_exists. eauto.
Qed.

Lemma user_bind_assignments_ok fields :
  Forall bindable fields -> bind_assignments fields = Ok fields.
Proof.
  induction 1 as [|a l Ha _ IH]; [reflexivity|]. cbn [bind_assignments].
  rewrite IH. destruct a; cbn in *; now rewrite (bind_text_ok _ Ha).
Qed.

Lemma user_bind_assignments_inv fields fields' :
  bind_assignments fields = Ok fields' ->
  fields' = fields /\ Forall bindable fields.
Proof.
  revert fields'. induction fields as [|a l IH]; cbn [bind_assignments];
    intros fields' H.
  - now injection H as <-.
  - destruct (bind_assignment a) as [a'|] eqn:Ha; [|discriminate].
    cbn [bind] in H. destruct (bind_assignments l) as [l'|]; [|discriminate].
    injection H as <-. destruct (IH l' eq_refl) as [-> Hl].
    destruct a as [t|t]; cbn in Ha;
      (destruct (bind_text t) as [t'|] eqn:Ht; [|discriminate]);
      injection Ha as <-; apply bind_text_inv in Ht as [-> Ht];
      (split; [reflexivity|now constructor]).
Qed.

Lemma requested_bindable nm em :
  Forall bindable
    ((if is_none nm then [] else [SetName (strip (py_str nm))])
     ++ (if is_none em then [] else [SetEmail (strip (py_str em))]))%list
  <-> field_bindable nm /\ field_bindable em.
Proof.
  unfold field_bindable. rewrite Forall_app.
  destruct (is_none nm), (is_none em); split.
  all: try (intros [H1 H2]; split; first [now left | right; now inversion H1
                                         | right; now inversion H2]).
  all: intros [[H1|H1] [H2|H2]]; try discriminate;
    split; repeat constructor; assumption.
Qed.

(** What the [UPDATE] of [update_user] does for the fields the view
    builds, when its values are bound. *)
Lemma update_rows_bound d k fields :
  Forall bindable fields -> sqlite_int k = true ->
  update_rows d fields k
  = let taken (e : string) :=
      existsb (fun u => id u =? k) (rows d)
      && existsb (fun u => negb (id u =? k) && (email u =? e)%string) (rows d) in
    let d' := {| rows := map (fun u => if id u =? k
                                       then fold_left assign fields u else u)
                             (rows d);
                 seq := seq d |} in
    match assigned_email fields with
    | Some e => if taken e then IntegrityError else Done d'
    | None => Done d'
    end.
Proof.
  intros Hf Hk. unfold update_rows.
  now rewrite (user_bind_assignments_ok _ Hf), (bind_int_ok _ Hk).
Qed.

Lemma update_rows_done d k fields d' :
  update_rows d fields k = Done d' -> Forall bindable fields.
Proof.
  unfold update_rows.
  destruct (bind_assignments fields) as [f'|] eqn:Hf; [|discriminate].
  intros _. now apply user_bind_assignments_inv in Hf.
Qed.

Lemma update_rows_requested d k nm em u :
  sqlite_int k = true -> find (fun x => id x =? k) (rows d) = Some u ->
  field_bindable nm -> field_bindable em ->
  update_rows d ((if is_none nm then [] else [SetName (strip (py_str nm))])
                 ++ (if is_none em then [] else [SetEmail (strip (py_str em))]))%list
              k
  = if email_taken d k em then IntegrityError
    else Done {| rows := map (fun x => if id x =? k then updated_user x nm em else x)
                             (rows d);
                 seq := seq d |}.
Proof.
  intros Hk Hu Hbn Hbe.
  rewrite update_rows_bound by (try apply requested_bindable; auto).
  cbv zeta. unfold email_taken.
  rewrite assigned_email_requested.
  rewrite (find_existsb_id _ _ _ Hu). cbn [andb].
  assert (Em : map (fun x => if id x =? k
                             then fold_left assign
                                    ((if is_none nm then []
                                      else [SetName (strip (py_str nm))])
                                     ++ (if is_none em then []
                                         else [SetEmail (strip (py_str em))]))%list x
                             else x) (rows d)
               = map (fun x => if id x =? k then updated_user x nm em else x) (rows d)).
  { apply map_ext. intros x. now rewrite assign_requested_user. }
  rewrite Em. destruct (is_none em); cbn [negb andb]; [reflexivity|].
  now destruct (existsb _ (rows d)).
Qed.

Lemma update_user_object user_id req d kv :
  py_or (get_json req) (JDict []) = JDict kv ->
  update_user user_id req d =
  serve d (row <- select_user d user_id ;;
           match row with
           | None => Ok (not_found, d)
           | Some _ =>
               v <- update_fields (dict_get kv "name") (dict_get kv "email") ;;
               match v with
               | inl resp => Ok (resp, d)
               | inr fields =>
                   match update_rows d fields user_id with
                   | IntegrityError => Ok (conflict, d)
                   | Failed e => Raise e
                   | Done d' =>
                       updated <- select_user d' user_id ;;
                       match updated with
                       | None => Raise TypeError
                       | Some r => Ok ((Json (JDict (dict_of_row r)), 200), d')
                       end
                   end
               end
           end).
Proof. intros H. unfold update_user. now rewrite H. Qed.





(** The other answers of [update_user], for a body that is an object.
    For an identifier that fits 64 bits signed: 404 when no user has it,
    whatever the body holds; 400 for a blank name, for a blank email and
    for a body with neither field.  For an identifier beyond 64 bits the
    lookup raises and the answer is 500.  The table is as it was in all
    of them. *)
Theorem update_user_rejects user_id req d kv :
  py_or (get_json req) (JDict []) = JDict kv ->
  let nm := dict_get kv "name" in
  let em := dict_get kv "email" in
  (sqlite_int user_id = true ->
   (find (fun x => id x =? user_id) (rows d) = None ->
    update_user user_id req d = (not_found, d))
   /\ (forall u, find (fun x => id x =? user_id) (rows d) = Some u ->
       (is_none nm = false -> strip (py_str nm) = "" ->
        update_user user_id req d
        = (bad_request "Field 'name' cannot be empty.", d))
       /\ (field_ok nm -> is_none em = false -> strip (py_str em) = "" ->
           update_user user_id req d
           = (bad_request "Field 'email' cannot be empty.", d))
       /\ (is_none nm = true -> is_none em = true ->
           update_user user_id req d
           = (bad_request "No updatable fields provided.", d))))
  /\ (sqlite_int user_id = false ->
      update_user user_id req d = ((ServerError OverflowError, 500), d)).
Proof.
  intros Hb nm em. rewrite (update_user_object _ _ _ _ Hb). split.
  - intros Hk. unfold select_user. rewrite (bind_int_ok _ Hk). cbn [bind].
    fold nm em. split.
    + now intros ->.
    + intros u ->. unfold update_fields. split; [|split].
      * intros -> ->. reflexivity.
      * intros Hn -> ->. destruct Hn as [-> | Hn]; [reflexivity|].
        destruct (is_none nm); [reflexivity|]. cbn [negb].
        now rewrite (eqb_empty_false _ Hn).
      * intros -> ->. reflexivity.
  - intros Hk. unfold select_user, bind_int. now rewrite Hk.
Qed.

(** What each view can do to the table. *)
Lemma create_user_table req now d :
  snd (create_user req now d) = d
  \/ (Z.max (seq d) (max_rowid (rows d)) < INT64_MAX
      /\ exists nm em,
          nm <> "" /\ em <> ""
          /\ existsb (fun x => (email x =? em)%string) (rows d) = false
          /\ snd (create_user req now d)
             = {| rows := (rows d ++ [ {| id := Z.max (seq d) (max_rowid (rows d)) + 1;
                                         name := nm; email := em;
                                         created_at := now |} ])%list;
                  seq := Z.max (seq d) (max_rowid (rows d)) + 1 |}).
Proof.
  unfold create_user.
  destruct (py_get _ "name") as [n0|]; cbn [bind serve snd]; auto.
  destruct (py_strip _) as [nm|]; cbn [bind serve snd]; auto.
  destruct (py_get _ "email") as [e0|]; cbn [bind serve snd]; auto.
  destruct (py_strip _) as [em|]; cbn [bind serve snd]; auto.
  destruct (String.eqb_spec nm "") as [|Hn]; cbn [orb serve snd]; auto.
  destruct (String.eqb_spec em "") as [|He]; cbn [orb serve snd]; auto.
  destruct (insert_user d nm em now) as [[k d1]| |e] eqn:Hins;
    cbn [serve snd]; auto.
  apply insert_user_done in Hins as (_ & _ & Hlt & Hex & -> & ->).
  destruct (select_user _ _) as [[r|]|]; cbn [bind serve snd]; auto;
    right; (split; [exact Hlt|]); exists nm, em; auto.
Qed.

Lemma update_user_table user_id req d :
  snd (update_user user_id req d) = d
  \/ exists nm em u,
      find (fun x => id x =? user_id) (rows d) = Some u
      /\ field_ok nm /\ field_ok em /\ email_taken d user_id em = false
      /\ snd (update_user user_id req d)
         = {| rows := map (fun x => if id x =? user_id
                                    then updated_user x nm em else x) (rows d);
              seq := seq d |}.
Proof.
  unfold update_user.
  destruct (py_get _ "name") as [nm|]; cbn [bind serve snd]; auto.
  destruct (py_get _ "email") as [em|]; cbn [bind serve snd]; auto.
  destruct (select_user d user_id) as [[u|]|] eqn:Hsel; cbn [bind serve snd]; auto.
  apply select_user_inv in Hsel as [Hk Hu]. symmetry in Hu.
  destruct (update_fields nm em) as [[resp|fields]|] eqn:Hf;
    cbn [bind serve snd]; auto.
  apply user_update_fields_next in Hf as (Hn & He & _ & ->).
  destruct (update_rows d _ user_id) as [d1| |e] eqn:Hupd; cbn [serve snd]; auto.
  pose proof (update_rows_done _ _ _ _ Hupd) as Hbind.
  apply requested_bindable in Hbind as [Hbn Hbe].
  rewrite (update_rows_requested _ _ _ _ _ Hk Hu Hbn Hbe) in Hupd.
  destruct (email_taken d user_id em) eqn:Ht; [discriminate|].
  injection Hupd as <-.
  destruct (select_user _ _) as [[r|]|]; cbn [bind serve snd]; auto;
    right; exists nm, em, u; auto.
Qed.

Lemma delete_user_table user_id d :
  snd (delete_user user_id d) = d
  \/ snd (delete_user user_id d)
     = {| rows := filter (fun u => negb (id u =? user_id)) (rows d);
          seq := seq d |}.
Proof.
  unfold delete_user, delete_rows.
  destruct (bind_int user_id) as [k|] eqn:Hk; cbn [bind serve snd]; auto.
  apply bind_int_inv in Hk as [-> _].
  destruct (_ =? 0); cbn [snd]; auto.
Qed.

Lemma get_user_table user_id d : snd (get_user user_id d) = d.
Proof.
  unfold get_user. destruct (select_user d user_id) as [[r|]|]; reflexivity.
Qed.

Lemma NoDup_map_filter_gen {A B : Type} (g : A -> B) (f : A -> bool) l :
  NoDup (map g l) -> NoDup (map g (filter f l)).
Proof.
  induction l as [|x l IH]; [trivial|]. cbn [map filter]. intros H.
  apply NoDup_cons_iff in H as [Hx Hl]. destruct (f x); [|auto].
  cbn [map]. constructor; [|auto]. intros Hin. apply Hx.
  apply in_map_iff in Hin as (y & Hy & Hin). apply filter_In in Hin as [Hin _].
  apply in_map_iff. eauto.
Qed.

Lemma emails_distinct_updated l k nm em :
  NoDup (map id l) -> NoDup (map email l) ->
  (is_none em = false ->
   forall x, In x l -> id x <> k -> email x <> strip (py_str em)) ->
  NoDup (map email (map (fun x => if id x =? k then updated_user x nm em else x) l)).
Proof.
  intros Hid Hem Hfree. destruct (is_none em) eqn:Ee.
  - assert (E : map email (map (fun x => if id x =? k
                                         then updated_user x nm em else x) l)
                = map email l).
    { rewrite map_map. apply map_ext. intros x. unfold updated_user.
      destruct (id x =? k); [cbn; now rewrite Ee|reflexivity]. }
    now rewrite E.
  - specialize (Hfree eq_refl).
    induction l as [|a l IH]; [constructor|]. cbn [map] in *.
    apply NoDup_cons_iff in Hid as [Ha Hid].
    apply NoDup_cons_iff in Hem as [Hae Hem].
    destruct (Z.eqb_spec (id a) k) as [Ek|Nk].
    + assert (E : map (fun x => if id x =? k then updated_user x nm em else x) l = l).
      { rewrite <- (map_id l) at 2. apply map_ext_in. intros x Hx.
        destruct (Z.eqb_spec (id x) k) as [Ex|]; [|reflexivity].
        elim Ha. rewrite Ek, <- Ex. now apply in_map. }
      rewrite E. constructor; [|exact Hem]. unfold updated_user. cbn [email].
      rewrite Ee. intros Hin. apply in_map_iff in Hin as (x & Hx & Hin).
      apply (Hfree x); [now right| |exact Hx].
      intros Ex. elim Ha. rewrite Ek, <- Ex. now apply in_map.
    + constructor.
      * intros Hin. apply in_map_iff in Hin as (y & Hy & Hin).
        apply in_map_iff in Hin as (x & <- & Hin).
        destruct (id x =? k).
        -- unfold updated_user in Hy. cbn [email] in Hy. rewrite Ee in Hy.
           apply (Hfree a); [now left|exact Nk|now symmetry].
        -- elim Hae. rewrite <- Hy. now apply in_map.
      * apply IH; auto. intros x Hx. apply Hfree. now right.
Qed.

Lemma email_taken_false d k em :
  email_taken d k em = false -> is_none em = false ->
  forall x, In x (rows d) -> id x <> k -> email x <> strip (py_str em).
Proof.
  unfold email_taken. intros Ht Hnone x Hx Hid He. rewrite Hnone in Ht.
  cbn [negb andb] in Ht.
  assert (existsb (fun x => negb (id x =? k)
                            && (email x =? strip (py_str em))%string) (rows d) = true).
  { apply existsb_exists. exists x. split; [exact Hx|].
    apply andb_true_iff. split; [now apply negb_true_iff, Z.eqb_neq|].
    now apply String.eqb_eq. }
  congruence.
Qed.

Lemma field_ok_value v old :
  field_ok v -> old <> "" -> (if is_none v then old else strip (py_str v)) <> "".
Proof. unfold field_ok. intros [-> | H] Ho; [exact Ho|]. now destruct (is_none v). Qed.

Lemma step_well_formed o d : well_formed d -> well_formed (snd (step o d)).
Proof.
  intros Hd. destruct o; cbn [step].
  - destruct (create_user_table req now d)
      as [-> | (Htop & nm & em & Hn & He & Hex & ->)]; [exact Hd|].
    destruct Hd as [Hids Hr Hs Hem Hf]. split; cbn [rows seq].
    + rewrite map_app. cbn [map]. apply NoDup_app; [exact Hids|repeat constructor; easy|].
      intros a Ha [<-|[]]. apply in_map_iff in Ha as (x & Hx & Hin).
      apply user_rowid_ge in Hin. cbn [id] in Hx. lia.
    + intros x Hx. apply in_app_or in Hx as [Hx|[<-|[]]].
      * specialize (Hr x Hx). lia.
      * cbn [id]. pose proof (user_rowid_nonneg (rows d)). lia.
    + lia.
    + rewrite map_app. cbn [map]. apply NoDup_app; [exact Hem|repeat constructor; easy|].
      intros a Ha [<-|[]]. apply in_map_iff in Ha as (x & Hx & Hin). cbn [email] in Hx.
      assert (existsb (fun x => (email x =? em)%string) (rows d) = true).
      { apply existsb_exists. exists x. split; [exact Hin|now apply String.eqb_eq]. }
      congruence.
    + intros x Hx. apply in_app_or in Hx as [Hx|[<-|[]]]; [auto|]. now split.
  - exact Hd.
  - now rewrite get_user_table.
  - destruct (update_user_table user_id req d)
      as [-> | (nm & em & u & Hu & Hn & He & Ht & ->)]; [exact Hd|].
    destruct Hd as [Hids Hr Hs Hem Hf]. split; cbn [rows seq].
    + rewrite map_map.
      assert (E : map (fun x => id (if id x =? user_id
                                    then updated_user x nm em else x)) (rows d)
                  = map id (rows d)).
      { apply map_ext. intros x. now destruct (id x =? user_id). }
      now rewrite E.
    + intros x Hx. apply in_map_iff in Hx as (y & <- & Hy).
      destruct (id y =? user_id); [cbn [updated_user id]|]; auto.
    + exact Hs.
    + apply emails_distinct_updated; auto. now apply email_taken_false.
    + intros x Hx. apply in_map_iff in Hx as (y & <- & Hy).
      destruct (Hf y Hy) as [Hyn Hye].
      destruct (id y =? user_id); [|auto]. unfold updated_user. cbn [name email].
      split; now apply field_ok_value.
  - destruct (delete_user_table user_id d) as [-> | ->]; [exact Hd|].
    destruct Hd as [Hids Hr Hs Hem Hf]. split; cbn [rows seq].
    + now apply NoDup_map_filter_gen.
    + intros x Hx. apply filter_In in Hx as [Hx _]. auto.
    + exact Hs.
    + now apply NoDup_map_filter_gen.
    + intros x Hx. apply filter_In in Hx as [Hx _]. auto.
Qed.

Lemma empty_well_formed : well_formed empty_db.
Proof.
  split; cbn; try constructor; try easy; unfold INT64_MAX; lia.
Qed.

Lemma run_well_formed ops d : well_formed d -> well_formed (run ops d).
Proof.
  revert d. induction ops as [|o ops IH]; intros d Hd; [exact Hd|].
  cbn [run fold_left]. apply IH. now apply step_well_formed.
Qed.

(** Whatever requests the user service has served, no two stored users
    share an email or an identifier, and every stored user has a name and
    an email that are not empty. *)
Theorem users_well_formed ops :
  let d := run ops empty_db in
  NoDup (map email (rows d)) /\ NoDup (map id (rows d))
  /\ (forall u, In u (rows d) -> name u <> "" /\ email u <> "").
Proof.
  intros d. destruct (run_well_formed ops empty_db empty_well_formed)
    as [Hids _ _ Hem Hf]. auto.
Qed.

Lemma find_unique_user l (u : user) :
  NoDup (map id l) -> In u l -> find (fun x => id x =? id u) l = Some u.
Proof.
  induction l as [|x l IH]; [easy|]. cbn [map find]. intros Hnd Hin.
  apply NoDup_cons_iff in Hnd as [Hx Hl].
  destruct Hin as [->|Hin]; [now rewrite Z.eqb_refl|].
  destruct (Z.eqb_spec (id x) (id u)) as [E|_]; [|now apply IH].
  elim Hx. rewrite E. now apply in_map.
Qed.

Lemma get_user_found d u :
  well_formed d -> In u (rows d) ->
  get_user (id u) d = ((Json (JDict (dict_of_row u)), 200), d).
Proof.
  intros [Hids Hr Hs _ _] Hu. unfold get_user, select_user.
  rewrite bind_int_ok.
  - cbn [bind]. now rewrite (find_unique_user _ _ Hids Hu).
  - apply sqlite_int_spec. specialize (Hr u Hu). unfold INT64_MIN. lia.
Qed.

Lemma get_user_absent d k :
  sqlite_int k = true -> ~ In k (map id (rows d)) -> get_user k d = (not_found, d).
Proof.
  intros Hk Hnin. unfold get_user, select_user. rewrite (bind_int_ok _ Hk).
  cbn [bind]. destruct (find _ (rows d)) as [o|] eqn:Hf; [|reflexivity].
  apply find_some in Hf as [Hin Hid]. apply Z.eqb_eq in Hid. elim Hnin.
  rewrite <- Hid. now apply in_map.
Qed.

(** After any sequence of requests, every stored user is the one
    [get_user] answers for its identifier, and an identifier no stored user
    has is answered with 404. *)
Theorem stored_user_is_found ops :
  let d := run ops empty_db in
  (forall u, In u (rows d) ->
             get_user (id u) d = ((Json (JDict (dict_of_row u)), 200), d))
  /\ (forall k, sqlite_int k = true -> ~ In k (map id (rows d)) ->
                get_user k d = (not_found, d)).
Proof.
  intros d. split.
  - intros u. apply get_user_found. apply run_well_formed, empty_well_formed.
  - apply get_user_absent.
Qed.

Lemma user_negb_negb (l : list user) k :
  existsb (fun u => negb (negb (id u =? k))) l = existsb (fun u => id u =? k) l.
Proof.
  induction l as [|x l IH]; [reflexivity|]. cbn [existsb].
  now rewrite negb_involutive, IH.
Qed.

(** [delete_user] removes the rows of the identifier and nothing else,
    answers 204 when there was one, after which [get_user] answers 404,
    and answers 404 with the table as it was when there was none. *)
Theorem delete_user_spec user_id d :
  sqlite_int user_id = true ->
  let kept := filter (fun u => negb (id u =? user_id)) (rows d) in
  let d' := {| rows := kept; seq := seq d |} in
  (forall u, In u kept <-> In u (rows d) /\ id u <> user_id)
  /\ (existsb (fun u => id u =? user_id) (rows d) = true ->
      delete_user user_id d = ((Text "", 204), d')
      /\ get_user user_id d' = (not_found, d'))
  /\ (existsb (fun u => id u =? user_id) (rows d) = false ->
      delete_user user_id d = (not_found, d)).
Proof.
  intros Hk kept d'. split; [|split].
  - intros u. unfold kept. rewrite filter_In, negb_true_iff, Z.eqb_neq. tauto.
  - intros Hex. split.
    + unfold delete_user, delete_rows. rewrite (bind_int_ok _ Hk). cbn [bind].
      fold kept. fold d'.
      assert (Hlt : (List.length kept < List.length (rows d))%nat).
      { apply filter_some_dropped. now rewrite user_negb_negb. }
      destruct (Z.eqb_spec (Z.of_nat (List.length (rows d))
                            - Z.of_nat (List.length kept)) 0); [lia|reflexivity].
    + apply get_user_absent; [exact Hk|]. cbn [rows d']. intros Hin.
      apply in_map_iff in Hin as (u & Hid & Hin).
      apply filter_In in Hin as [_ Hne]. rewrite Hid, Z.eqb_refl in Hne.
      discriminate.
  - intros Hex. unfold delete_user, delete_rows. rewrite (bind_int_ok _ Hk).
    cbn [bind]. rewrite filter_all_kept by now rewrite user_negb_negb.
    rewrite Z.sub_diag. cbn. now destruct d.
Qed.

(** *** [ORDER BY id] *)

Lemma insert_asc_perm u l : Permutation (insert_asc u l) (u :: l).
Proof.
  induction l as [|x l IH]; [reflexivity|]. cbn [insert_asc].
  destruct (id u <=? id x); [reflexivity|]. rewrite IH. apply perm_swap.
Qed.

Lemma order_by_id_perm l : Permutation (order_by_id l) l.
Proof.
  induction l as [|x l IH]; [reflexivity|]. unfold order_by_id.
  cbn [fold_right]. rewrite insert_asc_perm. now constructor.
Qed.

Lemma insert_asc_sorted u l :
  StronglySorted (fun a b => id a <= id b) l ->
  StronglySorted (fun a b => id a <= id b) (insert_asc u l).
Proof.
  induction 1 as [|x l Hl IH Hx]; cbn [insert_asc].
  - repeat constructor.
  - destruct (Z.leb_spec (id u) (id x)) as [Hle|Hgt].
    + constructor; [now constructor|]. constructor; [lia|].
      rewrite Forall_forall in Hx |- *. intros y Hy. specialize (Hx y Hy). lia.
    + constructor; [exact IH|]. rewrite (insert_asc_perm u l).
      constructor; [lia|exact Hx].
Qed.

Lemma order_by_id_sorted l : StronglySorted (fun a b => id a <= id b) (order_by_id l).
Proof.
  induction l as [|x l IH]; [constructor|]. now apply insert_asc_sorted.
Qed.

Lemma strictly_ascending l :
  StronglySorted (fun a b => id a <= id b) l -> NoDup (map id l) ->
  StronglySorted (fun a b => id a < id b) l.
Proof.
  induction 1 as [|x l Hl IH Hx]; cbn [map]; intros Hnd; [constructor|].
  apply NoDup_cons_iff in Hnd as [Hnin Hnd]. constructor; [auto|].
  rewrite Forall_forall in Hx |- *. intros y Hy. specialize (Hx y Hy).
  assert (id y <> id x) by (intros E; apply Hnin; rewrite <- E; now apply in_map).
  lia.
Qed.

(** After any sequence of requests, [list_users] answers 200 with every
    stored user, and no other, in strictly ascending order of
    identifier. *)
Theorem list_users_ascending ops :
  let d := run ops empty_db in
  exists l,
    list_users d = ((Json (JList (map (fun r => JDict (dict_of_row r)) l)), 200), d)
    /\ Permutation l (rows d)
    /\ StronglySorted (fun a b => id a < id b) l.
Proof.
  intros d. exists (order_by_id (rows d)).
  split; [reflexivity|]. split; [apply order_by_id_perm|].
  apply strictly_ascending; [apply order_by_id_sorted|].
  rewrite (Permutation_map id (order_by_id_perm (rows d))).
  apply (ids_distinct _ (run_well_formed ops empty_db empty_well_formed)).
Qed.
End Users.

(** * The services behind one another *)

Section Deployed.
Import OrderService Deployment.
Context {P : Platform}.
Variable render : json -> string.
Variable str_exn : exn -> string.


End Deployed.

Section Delivery.
Import OrderService Deployment.
Context {P : Platform}.
Variable render : json -> string.
Variable str_exn : exn -> string.



End Delivery.

(** * Runs on [ascii_platform] *)

Section Runs.
Import OrderService History Samples.
#[local] Existing Instance ascii_platform.



(** The widget order when the user service answers 404. *)
Lemma user_check_failures_witness :
  create_order widget world_no_user empty_db
  = ((Json (JDict [("error", JStr "Bad Request");
                   ("message", JStr "User does not exist.")]), 400), empty_db).
Proof.
  pose proof (user_check_failures (P := ascii_platform) widget world_no_user
                empty_db 1 "widget" 10 eq_refl) as H.
  cbn in H. destruct H as [H _]. exact (H eq_refl).
Defined.



(** The 201 answer to the widget order: the notification service
    completed the call with 201, so the flag is true and the body has no
    [notification_error]. *)
Lemma notification_error_key_witness :
  exists o ok err,
    In o (rows one_order)
    /\ Json (JDict (created_body order_1 true None))
       = Json (JDict (created_body o ok err))
    /\ ok = true /\ err = None
    /\ dict_get (created_body o ok err) "notification_sent" = JBool true
    /\ dict_has (created_body o ok err) "notification_error" = false.
Proof.
  destruct (notification_error_key (P := ascii_platform) widget world_ok empty_db
              _ _ eq_refl)
    as (o & ok & err & Hin & _ & Hb & _ & [Hd _] & _).
  destruct (Hd (or_intror eq_refl)) as (Hok & Herr & Hsent & Hkey).
  exists o, ok, err. auto 10.
Defined.

(** An update of order 7, which does not exist, and an update of order 1
    with a body that has none of the three fields. *)
Lemma update_order_missing_or_empty_witness :
  update_order 7 ship one_order
  = ((Json (JDict [("error", JStr "Not Found");
                   ("message", JStr "Order not found.")]), 404), one_order)
  /\ update_order 1 {| get_json := JDict [("note", JStr "x")] |} one_order
     = ((Json (JDict [("error", JStr "Bad Request");
                      ("message", JStr "No updatable fields provided.")]), 400),
        one_order).
Proof.
  split.
  - exact (proj1 (update_order_missing_or_empty (P := ascii_platform) 7 ship
                    one_order [("status", JStr "shipped")] eq_refl eq_refl)
                 eq_refl).
  - exact (proj2 (update_order_missing_or_empty (P := ascii_platform) 1
                    {| get_json := JDict [("note", JStr "x")] |} one_order
                    [("note", JStr "x")] eq_refl eq_refl)
                 order_1 eq_refl eq_refl eq_refl eq_refl).
Defined.

(** C5 as stated fails: no order has identifier 1, yet an update whose
    body is the JSON array [[1]] is answered with 500, not 404; and so is
    an update of [/orders/9223372036854775808], an identifier no order has
    and no statement parameter can hold. *)
Lemma update_order_array_body :
  (find (fun o => id o =? 1) (rows empty_db) = None
   /\ update_order 1 array_body empty_db
      = ((ServerError AttributeError, 500), empty_db))
  /\ (find (fun o => id o =? 9223372036854775808) (rows one_order) = None
      /\ update_order 9223372036854775808 ship one_order
         = ((ServerError OverflowError, 500), one_order)).
Proof. repeat split; reflexivity. Qed.

(** Shipping order 1 keeps the invariant. *)
Lemma order_invariant_witness :
  Forall row_ok (rows (snd (step (UpdateOrder 1 ship) one_order))).
Proof.
  assert (Hrows : Forall row_ok (rows one_order)).
  { repeat constructor. discriminate. }
  exact (proj1 (order_invariant (P := ascii_platform)) (UpdateOrder 1 ship)
               one_order Hrows).
Defined.



(** A notifications table that has handed out the largest rowid stores
    nothing more. *)
Example notify_table_full :
  NotificationService.notify loose_notification notifier
    {| NotificationService.rows := []; NotificationService.seq := INT64_MAX |}
  = ((ServerError OperationalError, 500),
     {| NotificationService.rows := []; NotificationService.seq := INT64_MAX |}).
Proof. reflexivity. Qed.

(** A message or a user id that holds a lone surrogate is not bound: the
    answer is 500 and nothing is stored. *)
Example notify_lone_surrogate :
  NotificationService.notify
    {| get_json := JDict [("message", JStr lone_surrogate)] |} notifier
    NotificationService.empty_db
  = ((ServerError UnicodeEncodeError, 500), NotificationService.empty_db)
  /\ NotificationService.notify
       {| get_json := JDict [("message", JStr "hi");
                             ("user_id", JStr lone_surrogate)] |} notifier
       NotificationService.empty_db
     = ((ServerError UnicodeEncodeError, 500), NotificationService.empty_db).
Proof. split; reflexivity. Qed.

(** With standard output closed the [print] raises after the commit: the
    answer is 500 and the notification is stored all the same. *)
Example notify_print_fails :
  NotificationService.notify loose_notification notifier_closed
                             NotificationService.empty_db
  = ((ServerError OSError, 500),
     {| NotificationService.rows :=
          [ {| NotificationService.id := 1;
               NotificationService.user_id := SText "nobody";
               NotificationService.order_id := SNull;
               NotificationService.message := "hi";
               NotificationService.created_at := "2026-01-02T03:04:05+00:00" |} ];
        NotificationService.seq := 1 |}).
Proof. reflexivity. Qed.

(** The line printed for that notification. *)
Example notify_log_line :
  NotificationService.log_line
    {| NotificationService.id := 1;
       NotificationService.user_id := SText "nobody";
       NotificationService.order_id := SNull;
       NotificationService.message := "hi";
       NotificationService.created_at := "2026-01-02T03:04:05+00:00" |}
  = "[notification-service] 2026-01-02T03:04:05+00:00 user_id=nobody"
    ++ " order_id=None message=hi".
Proof. reflexivity. Qed.

(** An item that holds a lone surrogate passes the checks of
    [create_order], user 1 is found, and the INSERT raises: the answer is
    500 and no row is written.  [update_order] fails the same way on such
    a status. *)
Example create_order_lone_surrogate :
  validate_order (order_request (JInt 1) (JStr lone_surrogate) (JInt 1))
  = Next (1, lone_surrogate, 1)
  /\ create_order (order_request (JInt 1) (JStr lone_surrogate) (JInt 1))
                  world_ok empty_db
     = ((ServerError UnicodeEncodeError, 500), empty_db)
  /\ update_order 1 {| get_json := JDict [("status", JStr lone_surrogate)] |}
                  one_order
     = ((ServerError UnicodeEncodeError, 500), one_order).
Proof. repeat split; reflexivity. Qed.

(** A table that has handed out the largest rowid takes no further order. *)
Example create_order_table_full :
  create_order widget world_ok {| rows := []; seq := INT64_MAX |}
  = ((ServerError OperationalError, 500), {| rows := []; seq := INT64_MAX |}).
Proof. reflexivity. Qed.

(** [update_order] takes the item 5 that [create_order] fails on: it stores
    [str(5)]. *)
Example update_order_number_item :
  update_order 1 {| get_json := JDict [("item", JInt 5)] |} one_order
  = ((Json (JDict [("id", JInt 1); ("user_id", JInt 1); ("item", JStr "5");
                   ("amount", JInt 10); ("status", JStr "created");
                   ("created_at", JStr "2026-01-02T03:04:05+00:00")]), 200),
     {| rows := [ {| id := 1; user_id := 1; item := "5"; amount := 10;
                     status := "created";
                     created_at := "2026-01-02T03:04:05+00:00" |} ];
        seq := 1 |}).
Proof. reflexivity. Qed.

(** An infinite amount sent to [create_order] is answered with 500 as well. *)
Example create_order_infinite_amount :
  create_order (order_request (JInt 1) (JStr "x") (JFloat (S754_infinity false)))
               world_ok empty_db
  = ((ServerError OverflowError, 500), empty_db).
Proof. reflexivity. Qed.

(** Rowids are not reused: after two orders and the deletion of the second,
    the third order gets identifier 3, and the listing is 3, 1. *)
Example list_orders_after_delete :
  let d := run [CreateOrder widget world_ok; CreateOrder widget world_ok;
                DeleteOrder 2; CreateOrder widget world_ok] empty_db in
  map id (order_by_id_desc (rows d)) = [3; 1].
Proof. reflexivity. Qed.

End Runs.

(** * Further runs on [ascii_platform] *)

Section MoreRuns.
Import OrderService History Samples MoreSamples.
#[local] Existing Instance ascii_platform.

(** A user id that is not a number is refused by the second rule. *)
Lemma create_order_rejects_witness :
  create_order bad_user_id world_ok empty_db
  = (bad_request "Field 'user_id' must be an integer.", empty_db).
Proof.
  assert (Hitem : "x" <> "") by discriminate.
  exact (proj1 (proj2 (create_order_rejects (P := ascii_platform) bad_user_id
                         world_ok empty_db
                         [("user_id", JStr "abc"); ("item", JStr "x");
                          ("amount", JInt 1)] "x" eq_refl eq_refl)
                      eq_refl Hitem eq_refl)
               (or_intror eq_refl)).
Defined.

(** The refused order leaves the table as it was. *)
Lemma create_order_writes_only_on_201_witness :
  snd (create_order bad_user_id world_ok empty_db) = empty_db.
Proof.
  assert (Hcode : snd (fst (create_order bad_user_id world_ok empty_db)) <> 201)
    by discriminate.
  exact (create_order_writes_only_on_201 (P := ascii_platform) bad_user_id
           world_ok empty_db Hcode).
Defined.

(** The widget order when the user service answers 200 with [null]. *)
Lemma user_check_200_edges_witness :
  create_order widget world_null_user empty_db
  = (bad_request "User does not exist.", empty_db).
Proof.
  exact (proj1 (user_check_200_edges (P := ascii_platform) widget world_null_user
                  empty_db 1 "widget" 10 "null" (Some JNull) eq_refl eq_refl)
               eq_refl).
Defined.

(** The detail of a notification answered with 500 and the text "boom". *)
Lemma excerpts_bounded_witness :
  exists excerpt,
    send_notification world_notify_500 1 1 "m"
    = (false, Some ("Unexpected status " ++ str_int 500 ++ ": " ++ excerpt))
    /\ String.length excerpt = Nat.min 500 (String.length "boom")
    /\ prefix excerpt "boom" = true.
Proof.
  assert (H200 : 500 <> 200) by discriminate.
  assert (H201 : 500 <> 201) by discriminate.
  exact (proj2 excerpts_bounded world_notify_500 1 1 "m" 500 "boom" None
               eq_refl H200 H201).
Defined.

(** A blank status is refused. *)
Lemma update_order_field_rules_witness :
  update_order 1 blank_status one_order
  = (bad_request "Field 'status' cannot be empty.", one_order).
Proof.
  exact (proj1 (update_order_field_rules (P := ascii_platform) 1 blank_status
                  one_order [("status", JStr " ")] order_1 eq_refl eq_refl eq_refl)
               eq_refl eq_refl).
Defined.

Lemma update_order_writes_only_on_200_witness :
  snd (update_order 1 blank_status one_order) = one_order.
Proof.
  assert (Hcode : snd (fst (update_order 1 blank_status one_order)) <> 200)
    by discriminate.
  exact (update_order_writes_only_on_200 (P := ascii_platform) 1 blank_status
           one_order Hcode).
Defined.

(** Shipping order 1 twice is the same as shipping it once. *)
Lemma update_order_settles_witness :
  update_order 1 ship (snd (update_order 1 ship one_order))
  = update_order 1 ship one_order.
Proof.
  assert (Hok : update_order 1 ship one_order
                = ((fst (fst (update_order 1 ship one_order)), 200),
                   snd (update_order 1 ship one_order))) by reflexivity.
  destruct (update_order_settles (P := ascii_platform) 1 ship one_order _ _ Hok)
    as (kv & o & n & _ & _ & _ & _ & _ & _ & _ & Hagain).
  rewrite Hagain. symmetry. exact Hok.
Defined.

(** Deleting the only order. *)
Lemma delete_order_spec_witness :
  delete_order 1 one_order = ((Text "", 204), {| rows := []; seq := 1 |})
  /\ get_order 1 {| rows := []; seq := 1 |} = (not_found, {| rows := []; seq := 1 |}).
Proof.
  exact (proj1 (proj2 (delete_order_spec 1 one_order eq_refl))
               eq_refl).
Defined.

(** The widget order is found after it is placed. *)
Lemma stored_order_is_found_witness :
  get_order 1 (run [CreateOrder widget world_ok] empty_db)
  = ((Json (JDict (dict_of_row order_1)), 200),
     run [CreateOrder widget world_ok] empty_db).
Proof.
  exact (proj1 (stored_order_is_found (P := ascii_platform)
                  [CreateOrder widget world_ok])
               order_1 (or_introl eq_refl)).
Defined.

(** After two orders and the deletion of the second, the next order gets
    an identifier above both. *)
Lemma identifiers_not_reused_witness :
  let d1 := run [CreateOrder widget world_ok; CreateOrder widget world_ok] empty_db in
  let d2 := run [DeleteOrder 2] d1 in
  exists j new,
    fst (fst (create_order widget world_ok d2)) = Json (JDict j)
    /\ dict_get j "id" = JInt new
    /\ forall o, In o (rows d1) -> id o < new.
Proof.
  intros d1 d2.
  assert (Hok : create_order widget world_ok d2
                = ((fst (fst (create_order widget world_ok d2)), 201),
                   snd (create_order widget world_ok d2))) by reflexivity.
  exact (identifiers_not_reused (P := ascii_platform)
           [CreateOrder widget world_ok; CreateOrder widget world_ok]
           [DeleteOrder 2] widget world_ok _ _ Hok).
Defined.

(** A user without an email is refused. *)
Lemma create_user_requires_fields_witness :
  UserService.create_user bob_without_email "2026-01-01T00:00:00+00:00"
                          UserService.empty_db
  = ((Json (JDict [("error", JStr "Bad Request");
                   ("message", JStr "Fields 'name' and 'email' are required.")]),
      400), UserService.empty_db).
Proof.
  exact (create_user_requires_fields (P := ascii_platform) bob_without_email
           "2026-01-01T00:00:00+00:00" UserService.empty_db [("name", JStr "Bob")]
           eq_refl
           (or_intror (ex_intro _ "Bob" eq_refl))
           (or_introl eq_refl)
           (or_intror (or_introl eq_refl))).
Defined.



(** An update of user 9, whom the table does not hold. *)
Lemma update_user_rejects_witness :
  UserService.update_user 9 take_ann_email users_ann
  = (UserService.not_found, users_ann).
Proof.
  exact (proj1 (proj1 (update_user_rejects (P := ascii_platform) 9
                         take_ann_email users_ann
                         [("email", JStr "ann@example.org")] eq_refl)
                      eq_refl)
               eq_refl).
Defined.

(** Deleting Ann. *)
Lemma delete_user_spec_witness :
  UserService.delete_user 1 users_ann
  = ((Text "", 204), {| UserService.rows := []; UserService.seq := 1 |})
  /\ UserService.get_user 1 {| UserService.rows := []; UserService.seq := 1 |}
     = (UserService.not_found,
        {| UserService.rows := []; UserService.seq := 1 |}).
Proof.
  exact (proj1 (proj2 (delete_user_spec 1 users_ann eq_refl)) eq_refl).
Defined.

(** Ann is found after she is created. *)
Lemma stored_user_is_found_witness :
  UserService.get_user 1
    (UserService.run [UserService.CreateUser ann "2026-01-01T00:00:00+00:00"]
                     UserService.empty_db)
  = ((Json (JDict (UserService.dict_of_row user_ann)), 200),
     UserService.run [UserService.CreateUser ann "2026-01-01T00:00:00+00:00"]
                     UserService.empty_db).
Proof.
  exact (proj1 (stored_user_is_found (P := ascii_platform)
                  [UserService.CreateUser ann "2026-01-01T00:00:00+00:00"])
               user_ann (or_introl eq_refl)).
Defined.




(** With the notification service's standard output closed, the order is
    placed, the notification is stored, and the order service is told
    that it was not sent. *)
Example stored_but_reported_unsent :
  let nw := notifier_closed in
  let w := {| utc_now_iso := "2026-01-02T03:04:05+00:00";
              user_service := fun _ => Response 200 "" (Some user_1);
              notification_service :=
                Deployment.notification_service_on (fun _ => "") (fun _ => "boom")
                  nw NotificationService.empty_db |} in
  fst (send_notification w 1 1 (creation_message 1 1)) = false
  /\ List.length
       (NotificationService.rows
          (snd (NotificationService.notify
                  {| get_json := notification_payload 1 1 (creation_message 1 1) |}
                  nw NotificationService.empty_db))) = 1%nat.
Proof. split; reflexivity. Qed.

(** A name that holds a lone surrogate is not bound: [create_user] and
    [update_user] answer 500 and the table is as it was. *)
Example user_lone_surrogate :
  UserService.create_user
    {| get_json := JDict [("name", JStr lone_surrogate);
                          ("email", JStr "eve@example.org")] |}
    "2026-01-01T00:00:00+00:00" UserService.empty_db
  = ((ServerError UnicodeEncodeError, 500), UserService.empty_db)
  /\ UserService.update_user 1
       {| get_json := JDict [("name", JStr lone_surrogate)] |} users_ann
     = ((ServerError UnicodeEncodeError, 500), users_ann).
Proof. split; reflexivity. Qed.

(** [PUT /users/9223372036854775808]: the identifier is one no user has,
    and no statement parameter can hold it; the answer is 500. *)
Example update_user_beyond_int64 :
  UserService.update_user 9223372036854775808 take_ann_email users_ann
  = ((ServerError OverflowError, 500), users_ann).
Proof. reflexivity. Qed.

(** Ann, then a second request with her email, then Bob: the second is
    refused and Bob gets identifier 2. *)
Example users_after_conflict :
  map UserService.email
      (UserService.rows
         (UserService.run
            [UserService.CreateUser ann "2026-01-01T00:00:00+00:00";
             UserService.CreateUser ann "2026-01-01T00:00:01+00:00";
             UserService.CreateUser
               {| get_json := JDict [("name", JStr "Bob");
                                     ("email", JStr "bob@example.org")] |}
               "2026-01-01T00:00:02+00:00"]
            UserService.empty_db))
  = ["ann@example.org"; "bob@example.org"].
Proof. reflexivity. Qed.
End MoreRuns.
